(** * EcoHero+ backend: the wallet ledger and its request handlers

    A shallow embedding of [main.py] and [schemas.py].  Documents are
    Python dicts (finite maps from field names to values), the database
    handle [db] is threaded explicitly through every handler, and an
    exception is a result of its own, so that what is written before a
    request is refused can be read off the final state. *)

From Stdlib Require Import ZArith NArith Ascii String List Bool Lia.
From Stdlib Require Import Floats.SpecFloat.
From stdpp Require Import base decidable option list strings gmap fin_maps pretty.

Open Scope string_scope.
Open Scope Z_scope.

(** ** Python values held in documents *)

(** The BSON values the handlers read and write: null, booleans,
    integers, strings and object ids (an object id is the number
    [ObjectId.of_bytes] makes of its bytes). *)
Inductive value :=
| VNone
| VBool (b : bool)
| VInt (z : Z)
| VStr (s : string)
| VOid (o : N).

#[global] Instance value_eq_dec : EqDecision value.
Proof. solve_decision. Defined.

(** A document is a dict keyed by field name. *)
Abbreviation Doc := (gmap string value).

(** ** Exceptions and results *)

Inductive exn :=
| HTTPException (status_code : Z) (detail : string)
| InvalidId
| ValidationError
| TypeError
| OverflowError
| DatabaseUnavailable.

#[global] Instance exn_eq_dec : EqDecision exn.
Proof. solve_decision. Defined.

Inductive res (A : Type) :=
| Ok (a : A)
| Raise (e : exn).
Arguments Ok {A} a.
Arguments Raise {A} e.

Definition is_ok {A} (r : res A) : bool :=
  match r with Ok _ => true | Raise _ => false end.

Definition res_bind {A B} (r : res A) (k : A -> res B) : res B :=
  match r with Ok a => k a | Raise e => Raise e end.

(** ** bson.ObjectId *)

Module ObjectId.

Definition hex_value (c : ascii) : option N :=
  let n := N_of_ascii c in
  if ((48 <=? n) && (n <=? 57))%N then Some (n - 48)%N
  else if ((97 <=? n) && (n <=? 102))%N then Some (n - 87)%N
  else if ((65 <=? n) && (n <=? 70))%N then Some (n - 55)%N
  else None.

(** The ASCII whitespace that [bytes.fromhex] skips: tab, line feed,
    vertical tab, form feed, carriage return and space. *)
Definition is_space (c : ascii) : bool :=
  let n := N_of_ascii c in
  (((9 <=? n) && (n <=? 13)) || (n =? 32))%N.

(** [bytes.fromhex(s)]: two hexadecimal digits per byte, whitespace
    allowed before a byte but not between its two digits; [None] is
    the [ValueError]. *)
Fixpoint fromhex (s : string) : option (list N) :=
  match s with
  | EmptyString => Some []
  | String c s' =>
      if is_space c then fromhex s'
      else
        match hex_value c, s' with
        | Some top, String c' s'' =>
            match hex_value c', fromhex s'' with
            | Some bot, Some bytes => Some ((16 * top + bot)%N :: bytes)
            | _, _ => None
            end
        | _, _ => None
        end
  end.

Definition value_of (bytes : list N) : N :=
  fold_left (fun v b => (256 * v + b)%N) bytes 0%N.

(** An object id is the bytes it holds: twelve, or fewer when the
    string had whitespace in it.  Twelve bytes are kept as their
    number, below [2^96]; fewer bytes are kept apart from them by the
    number of missing bytes, counted in units of [2^96]. *)
Definition of_bytes (bytes : list N) : N :=
  ((12 - N.of_nat (length bytes)) * 2 ^ 96 + value_of bytes)%N.

(** [ObjectId(s)] for a [str]: the string must have 24 characters and
    [bytes.fromhex] must accept it, else [InvalidId]. *)
Definition of_str (s : string) : res N :=
  if Nat.eqb (String.length s) 24 then
    match fromhex s with
    | Some bytes => Ok (of_bytes bytes)
    | None => Raise InvalidId
    end
  else Raise InvalidId.

Definition is_valid (s : string) : bool := is_ok (of_str s).

Definition hex_digit (d : N) : ascii :=
  if (d <? 10)%N then ascii_of_N (48 + d) else ascii_of_N (87 + d).

Fixpoint hex_digits (n : nat) (o : N) (acc : string) : string :=
  match n with
  | O => acc
  | S n' => hex_digits n' (o / 16)%N (String (hex_digit (o mod 16)%N) acc)
  end.

(** [str(oid)]: two lower-case hexadecimal digits per byte, 24 for
    the twelve bytes of a generated id. *)
Definition to_str (o : N) : string :=
  hex_digits (2 * (12 - N.to_nat (o / 2 ^ 96))) (o mod 2 ^ 96) "".

End ObjectId.

(** [str(v)] as [to_str_id] applies it to a stored [_id]. *)
Definition py_str (v : value) : string :=
  match v with
  | VNone => "None"
  | VBool true => "True"
  | VBool false => "False"
  | VInt z => pretty z
  | VStr s => s
  | VOid o => ObjectId.to_str o
  end.

(** ** Python floats (IEEE 754 binary64) *)

Module Float.

Definition prec : Z := 53.
Definition emax : Z := 1024.
Abbreviation float := spec_float.

Definition of_Z (z : Z) : float := binary_normalize prec emax z 0 false.

(** The integers at or above this bound round to infinity. *)
Definition overflow_bound : Z := 2 ^ 1024 - 2 ^ 970.

(** Conversion of a Python [int] operand of a float operation:
    correctly rounded, [OverflowError] when the result is not finite. *)
Definition of_int (z : Z) : res float :=
  if Z.abs z <? overflow_bound then Ok (of_Z z) else Raise OverflowError.

Definition div (x y : float) : float := SFdiv prec emax x y.
Definition ltb (x y : float) : bool := SFltb x y.
Definition leb (x y : float) : bool := SFleb x y.
Definition geb (x y : float) : bool := SFleb y x.

Definition f1000 : float := of_Z 1000.
Definition f10 : float := of_Z 10.

(** [n / 1000.0] for a Python [int] [n]. *)
Definition int_div_1000 (n : Z) : res float :=
  res_bind (of_int n) (fun x => Ok (div x f1000)).

(** Nearest integer to [n / d] for [d > 0], ties to the even one. *)
Definition div_half_even (n d : Z) : Z :=
  let q := n / d in
  let r := n mod d in
  match 2 * r ?= d with
  | Lt => q
  | Gt => q + 1
  | Eq => if Z.even q then q else q + 1
  end.

(** [round(x, 2)]: the decimal with two fractional digits nearest to
    the exact value of [x] (ties to even), converted back to the
    nearest float. *)
Definition round2 (x : float) : float :=
  match x with
  | S754_finite s m e =>
      let n :=
        match e with
        | Zneg p => div_half_even (100 * Zpos m) (2 ^ Zpos p)
        | _ => 100 * Zpos m * 2 ^ e
        end in
      match n with
      | Zpos p => SFdiv prec emax (S754_finite s p 0) (S754_finite false 100 0)
      | _ => S754_zero s
      end
  | _ => x
  end.

End Float.

(** ** schemas.py: the pydantic models *)

(** A model is validated when it is constructed and dumped to a dict
    when it is stored. *)
Class BaseModel (A : Type) := model_dump : A -> Doc.

Definition opt_str (o : option string) : value :=
  match o with Some s => VStr s | None => VNone end.

Module User.
Record t := {
  name : string;
  age : Z;
  email : option string;
  parent_email : option string;
  is_parent_approved : bool;
}.

#[global] Instance dump : BaseModel t := fun u =>
  {[ "name" := VStr (name u);
     "age" := VInt (age u);
     "email" := opt_str (email u);
     "parent_email" := opt_str (parent_email u);
     "is_parent_approved" := VBool (is_parent_approved u) ]}.
End User.

Module Challenge.
Record t := {
  title : string;
  description : string;
  audience : string;
  points : Z;
  is_active : bool;
}.

(** [audience: Literal["kid", "adult", "all"]] and
    [points: int = Field(..., ge=10, le=5000)]. *)
Definition new (item : t) : res t :=
  if bool_decide (audience item ∈ ["kid"; "adult"; "all"])
     && (10 <=? points item) && (points item <=? 5000)
  then Ok item else Raise ValidationError.

#[global] Instance dump : BaseModel t := fun c =>
  {[ "title" := VStr (title c);
     "description" := VStr (description c);
     "audience" := VStr (audience c);
     "points" := VInt (points c);
     "is_active" := VBool (is_active c) ]}.
End Challenge.

Module Submission.
Record t := {
  user_id : string;
  challenge_id : string;
  proof_url : option string;
  notes : option string;
  points_awarded : Z;
  status : string;
}.

(** The value given for [points_awarded] comes from a stored document.
    An integer is taken as it is; what pydantic makes of any other
    value is left to [coerce]. *)
Definition int_field (coerce : value -> option Z) (v : value) : res Z :=
  match v with
  | VInt z => Ok z
  | _ => match coerce v with Some z => Ok z | None => Raise ValidationError end
  end.

(** [points_awarded: int = Field(..., ge=0)] and
    [status: Literal["approved", "pending", "rejected"]]. *)
Definition new (coerce : value -> option Z)
    (user_id challenge_id : string) (proof_url notes : option string)
    (points_awarded : value) (status : string) : res t :=
  res_bind (int_field coerce points_awarded) (fun p =>
    if (0 <=? p) && bool_decide (status ∈ ["approved"; "pending"; "rejected"])
    then Ok {| user_id := user_id; challenge_id := challenge_id;
               proof_url := proof_url; notes := notes;
               points_awarded := p; status := status |}
    else Raise ValidationError).

#[global] Instance dump : BaseModel t := fun s =>
  {[ "user_id" := VStr (user_id s);
     "challenge_id" := VStr (challenge_id s);
     "proof_url" := opt_str (proof_url s);
     "notes" := opt_str (notes s);
     "points_awarded" := VInt (points_awarded s);
     "status" := VStr (status s) ]}.
End Submission.

Module WalletTransaction.
Record t := {
  user_id : string;
  type : string;
  points : Z;
  note : option string;
}.

(** [type: Literal["redeem", "adjustment"]] and
    [points: int = Field(..., ge=1)]. *)
Definition new (user_id type : string) (points : Z) (note : option string) : res t :=
  if bool_decide (type ∈ ["redeem"; "adjustment"]) && (1 <=? points)
  then Ok {| user_id := user_id; type := type; points := points; note := note |}
  else Raise ValidationError.

#[global] Instance dump : BaseModel t := fun w =>
  {[ "user_id" := VStr (user_id w);
     "type" := VStr (type w);
     "points" := VInt (points w);
     "note" := opt_str (note w) ]}.
End WalletTransaction.

(** ** The document store *)

(** The collections by name, each in insertion order, and the number
    from which the next object id is generated. *)
Record Database := {
  collections : gmap string (list Doc);
  next_oid : N;
}.

(** [db[name]]: a collection that was never written to is empty. *)
Definition collection (d : Database) (name : string) : list Doc :=
  default [] (collections d !! name).

(** An equality filter: every field of the query is found in the
    document with an equal value; a null in the query also matches a
    document without the field. *)
Definition field_matches (o : option value) (v : value) : bool :=
  match o with
  | Some w => bool_decide (w = v)
  | None => bool_decide (v = VNone)
  end.

Definition matches (query doc : Doc) : bool :=
  bool_decide (map_Forall (fun k v => field_matches (doc !! k) v = true) query).

Definition insert_one (name : string) (doc : Doc) (d : Database) : Database :=
  {| collections := <[name := (collection d name ++ [<["_id" := VOid (next_oid d)]> doc])%list]> (collections d);
     next_oid := N.succ (next_oid d) |}.

(** ** Handlers: state and exceptions *)

(** The state is the global handle [db], [None] when the database is
    not configured.  A handler returns its response or the exception it
    raised, and the handle as it left it. *)
Definition M (A : Type) : Type := option Database -> res A * option Database.

#[global] Instance M_ret : MRet M := fun A a h => (Ok a, h).
#[global] Instance M_bind : MBind M := fun A B k m h =>
  match m h with
  | (Ok a, h') => k a h'
  | (Raise e, h') => (Raise e, h')
  end.

Definition raise {A} (e : exn) : M A := fun h => (Raise e, h).

Definition lift {A} (r : res A) : M A := fun h => (r, h).

(** [try: body except Exception: handler]. *)
Definition try_except {A} (body : M A) (handler : exn -> M A) : M A := fun h =>
  match body h with
  | (Ok a, h') => (Ok a, h')
  | (Raise e, h') => handler e h'
  end.

(** [db is None]. *)
Definition db_is_None : M bool := fun h =>
  (Ok (match h with None => true | Some _ => false end), h).

(** Subscripting the handle: [db[name]] on [None] is a [TypeError]. *)
Definition with_collection {A} (name : string) (f : list Doc -> A) : M A := fun h =>
  match h with
  | Some d => (Ok (f (collection d name)), h)
  | None => (Raise TypeError, h)
  end.

(** [db[name].find(query)]. *)
Definition find (name : string) (query : Doc) : M (list Doc) :=
  with_collection name (filter (fun doc => matches query doc = true)).

(** [db[name].find_one(query)]. *)
Definition find_one (name : string) (query : Doc) : M (option Doc) :=
  with_collection name (fun docs => head (filter (fun doc => matches query doc = true) docs)).

(** [db[name].count_documents(query)]. *)
Definition count_documents (name : string) (query : Doc) : M Z :=
  with_collection name (fun docs => Z.of_nat (length (filter (fun doc => matches query doc = true) docs))).

(** Modelled from the spec: [create_document] of the absent
    [database.py], the store's insert-one: the dumped model is appended
    to the named collection under a generated id, which is returned as a
    string. *)
Definition create_document {A} `{BaseModel A} (collection_name : string) (data : A) : M string := fun h =>
  match h with
  | Some d => (Ok (ObjectId.to_str (next_oid d)), Some (insert_one collection_name (model_dump data) d))
  | None => (Raise DatabaseUnavailable, h)
  end.

(** Modelled from the spec: [get_documents] of the absent
    [database.py], the store's find-many-by-filter with a cap on the
    number of results. *)
Definition get_documents (collection_name : string) (query : Doc) (limit : nat) : M (list Doc) :=
  docs ← find collection_name query;
  mret (take limit docs).

(** ** main.py: helpers and request models *)

(** Truth value of an optional string, of a fetched document and of an
    optional flag. *)
Definition truthy_str (o : option string) : bool :=
  match o with Some s => negb (bool_decide (s = "")) | None => false end.

Definition truthy_doc (o : option Doc) : bool :=
  match o with Some d => negb (bool_decide (d = ∅)) | None => false end.

Definition truthy_flag (o : option bool) : bool :=
  match o with Some b => b | None => false end.

(** [doc.get(key, default)]. *)
Definition get (doc : Doc) (key : string) (dflt : value) : value :=
  default dflt (doc !! key).

Definition py_add (acc : Z) (v : value) : res Z :=
  match v with
  | VInt z => Ok (acc + z)
  | VBool b => Ok (acc + Z.b2z b)
  | _ => Raise TypeError
  end.

(** [sum(vs)], starting from the integer 0. *)
Fixpoint sum_from (acc : Z) (vs : list value) : res Z :=
  match vs with
  | [] => Ok acc
  | v :: vs' => res_bind (py_add acc v) (fun acc' => sum_from acc' vs')
  end.

Definition sum (vs : list value) : res Z := sum_from 0 vs.

Definition to_str_id (doc : option Doc) : option Doc :=
  match doc with
  | None => None
  | Some d =>
      match d !! "_id" with
      | Some v =>
          if bool_decide (v = VNone) then Some d
          else Some (<["id" := VStr (py_str v)]> (delete "_id" d))
      | None => Some d
      end
  end.

Module SubmitRequest.
Record t := {
  user_id : string;
  challenge_id : string;
  notes : option string;
}.
End SubmitRequest.

Module RedeemRequest.
Record t := {
  user_id : string;
  points : Z;
  for_under18 : option bool;
}.
End RedeemRequest.

(** The dict returned by [get_wallet]. *)
Module Wallet.
Record t := {
  user_id : string;
  points : Z;
  dollars : Float.float;
  can_withdraw : bool;
  min_withdrawal_dollars : Float.float;
}.
End Wallet.

Definition not_configured {A} : M A :=
  raise (HTTPException 500 "Database not configured").

(** ** main.py: the handlers *)

Definition defaults : list Challenge.t :=
  [ {| Challenge.title := "Draw a poster about saving trees";
       Challenge.description := "Create a colorful poster that shows how trees help the planet.";
       Challenge.audience := "kid"; Challenge.points := 100; Challenge.is_active := true |};
    {| Challenge.title := "Water a plant";
       Challenge.description := "Water a plant at home or school and take a photo.";
       Challenge.audience := "kid"; Challenge.points := 100; Challenge.is_active := true |};
    {| Challenge.title := "Switch off lights before bed";
       Challenge.description := "Make it a habit to switch off unnecessary lights.";
       Challenge.audience := "kid"; Challenge.points := 50; Challenge.is_active := true |};
    {| Challenge.title := "Plant a tree";
       Challenge.description := "Plant a tree in your community or backyard.";
       Challenge.audience := "adult"; Challenge.points := 1000; Challenge.is_active := true |};
    {| Challenge.title := "Recycle bottles";
       Challenge.description := "Recycle at least 10 plastic or glass bottles.";
       Challenge.audience := "adult"; Challenge.points := 500; Challenge.is_active := true |};
    {| Challenge.title := "Use bicycle/public transport";
       Challenge.description := "Choose a bike or public transport instead of a car for a trip.";
       Challenge.audience := "adult"; Challenge.points := 300; Challenge.is_active := true |} ].

(** [for item in items: body(item)]. *)
Fixpoint for_each {A} (items : list A) (body : A -> M unit) : M unit :=
  match items with
  | [] => mret tt
  | item :: rest => _ ← body item; for_each rest body
  end.

(** POST /seed *)
Definition seed_challenges : M Doc :=
  none ← db_is_None;
  if none : bool then not_configured else
  existing ← count_documents "challenge" ∅;
  if 0 <? existing then
    mret ({[ "status" := VStr "ok"; "seeded" := VBool false; "count" := VInt existing ]} : Doc)
  else
    _ ← for_each defaults (fun item =>
          c ← lift (Challenge.new item);
          _ ← create_document "challenge" c;
          mret tt);
    mret ({[ "status" := VStr "ok"; "seeded" := VBool true;
             "count" := VInt (Z.of_nat (length defaults)) ]} : Doc).

(** GET /challenges *)
Definition list_challenges (audience : option string) : M (list (option Doc)) :=
  none ← db_is_None;
  if none : bool then not_configured else
  let query : Doc := {[ "is_active" := VBool true ]} in
  let query : Doc :=
    match audience with
    | Some a => if bool_decide (a ∈ ["kid"; "adult"]) then <["audience" := VStr a]> query else query
    | None => query
    end in
  docs ← get_documents "challenge" query 100;
  mret ((fun d => to_str_id (Some d)) <$> docs).

(** POST /users *)
Definition create_user (payload : User.t) : M Doc :=
  none ← db_is_None;
  if none : bool then not_configured else
  if (User.age payload <? 18) && negb (truthy_str (User.parent_email payload)) then
    raise (HTTPException 400 "Parent email required for under-18 users")
  else
    new_id ← create_document "user" payload;
    mret ({[ "id" := VStr new_id ]} : Doc).

(** POST /submit.  [coerce] is pydantic's conversion to [int] of a
    stored value that is not an integer. *)
Definition submit_challenge (coerce : value -> option Z) (payload : SubmitRequest.t) : M Doc :=
  none ← db_is_None;
  if none : bool then not_configured else
  found ← try_except
    (uid ← lift (ObjectId.of_str (SubmitRequest.user_id payload));
     user ← find_one "user" {[ "_id" := VOid uid ]};
     cid ← lift (ObjectId.of_str (SubmitRequest.challenge_id payload));
     challenge ← find_one "challenge" {[ "_id" := VOid cid ]};
     mret (user, challenge))
    (fun _ => raise (HTTPException 400 "Invalid ids provided"));
  let '(user, challenge) := found in
  match challenge with
  | Some c =>
      if negb (truthy_doc user) || negb (truthy_doc challenge) then
        raise (HTTPException 404 "User or challenge not found")
      else
        let points := get c "points" (VInt 0) in
        sub ← lift (Submission.new coerce
                      (SubmitRequest.user_id payload) (SubmitRequest.challenge_id payload)
                      None (SubmitRequest.notes payload) points "approved");
        sub_id ← create_document "submission" sub;
        mret ({[ "id" := VStr sub_id; "points_awarded" := points ]} : Doc)
  | None => raise (HTTPException 404 "User or challenge not found")
  end.

(** GET /wallet/{user_id} *)
Definition get_wallet (user_id : string) : M Wallet.t :=
  none ← db_is_None;
  if none : bool then not_configured else
  _ ← try_except (lift (ObjectId.of_str user_id))
        (fun _ => raise (HTTPException 400 "Invalid user id"));
  subs ← find "submission" {[ "user_id" := VStr user_id; "status" := VStr "approved" ]};
  earned ← lift (sum ((fun d => get d "points_awarded" (VInt 0)) <$> subs));
  txns ← find "wallettransaction" {[ "user_id" := VStr user_id; "type" := VStr "redeem" ]};
  redeemed ← lift (sum ((fun d => get d "points" (VInt 0)) <$> txns));
  let balance := Z.max 0 (earned - redeemed) in
  dollars ← lift (Float.int_div_1000 balance);
  mret {| Wallet.user_id := user_id;
          Wallet.points := balance;
          Wallet.dollars := Float.round2 dollars;
          Wallet.can_withdraw := Float.geb dollars Float.f10;
          Wallet.min_withdrawal_dollars := Float.f10 |}.

(** POST /redeem *)
Definition redeem_points (payload : RedeemRequest.t) : M Doc :=
  none ← db_is_None;
  if none : bool then not_configured else
  wallet ← get_wallet (RedeemRequest.user_id payload);
  if (RedeemRequest.points payload <=? 0)
     || (Wallet.points wallet <? RedeemRequest.points payload) then
    raise (HTTPException 400 "Invalid points amount")
  else
    dollars ← lift (Float.int_div_1000 (RedeemRequest.points payload));
    if Float.ltb dollars Float.f10 then
      raise (HTTPException 400 "Minimum withdrawal is $10")
    else
      txn ← lift (WalletTransaction.new
                    (RedeemRequest.user_id payload) "redeem" (RedeemRequest.points payload)
                    (Some (if truthy_flag (RedeemRequest.for_under18 payload)
                           then "Parent-approved withdrawal" else "Withdrawal")));
      txn_id ← create_document "wallettransaction" txn;
      mret ({[ "id" := VStr txn_id; "status" := VStr "pending_payout" ]} : Doc).

(** ** The ledger in the words of the specification *)

Module Ledger.

Definition has_str (key s : string) (doc : Doc) : bool :=
  bool_decide (doc !! key = Some (VStr s)).

(** The integer a record holds under [key]; a record without one
    counts for nothing. *)
Definition int_field (key : string) (doc : Doc) : Z :=
  match doc !! key with Some (VInt z) => z | _ => 0 end.

(** Sum of the field over the selected records. *)
Fixpoint total (sel : Doc -> bool) (key : string) (docs : list Doc) : Z :=
  match docs with
  | [] => 0
  | doc :: rest => (if sel doc then int_field key doc else 0) + total sel key rest
  end.

Definition approved_submission (user_id : string) (doc : Doc) : bool :=
  has_str "user_id" user_id doc && has_str "status" "approved" doc.

Definition redemption (user_id : string) (doc : Doc) : bool :=
  has_str "user_id" user_id doc && has_str "type" "redeem" doc.

Definition earned (d : Database) (user_id : string) : Z :=
  total (approved_submission user_id) "points_awarded" (collection d "submission").

Definition redeemed (d : Database) (user_id : string) : Z :=
  total (redemption user_id) "points" (collection d "wallettransaction").

Definition balance (d : Database) (user_id : string) : Z :=
  Z.max 0 (earned d user_id - redeemed d user_id).

(** The point fields of the ledger's records hold integers. *)
Definition int_or_absent (key : string) (doc : Doc) : bool :=
  match doc !! key with
  | None | Some (VInt _) => true
  | Some _ => false
  end.

Definition typed (d : Database) : bool :=
  forallb (int_or_absent "points_awarded") (collection d "submission")
  && forallb (int_or_absent "points") (collection d "wallettransaction").

(** The user has no approved submission and no redemption. *)
Definition no_activity (d : Database) (user_id : string) : bool :=
  forallb (fun doc => negb (approved_submission user_id doc)) (collection d "submission")
  && forallb (fun doc => negb (redemption user_id doc)) (collection d "wallettransaction").

(** [k / 1000.0 >= 10.0] and [k / 1000.0 < 10.0], as the handlers
    evaluate them. *)
Definition meets_minimum (k : Z) : Prop :=
  exists x, Float.int_div_1000 k = Ok x /\ Float.geb x Float.f10 = true.

Definition below_minimum (k : Z) : Prop :=
  exists x, Float.int_div_1000 k = Ok x /\ Float.ltb x Float.f10 = true.

(** find-one-by-id. *)
Definition by_id (o : N) (docs : list Doc) : option Doc :=
  List.find (fun doc => bool_decide (doc !! "_id" = Some (VOid o))) docs.

End Ledger.

(** The queries of [get_wallet], the values it sums and the dict it
    builds from a balance. *)
Definition approved_of (user_id : string) : Doc :=
  {[ "user_id" := VStr user_id; "status" := VStr "approved" ]}.

Definition redeems_of (user_id : string) : Doc :=
  {[ "user_id" := VStr user_id; "type" := VStr "redeem" ]}.

Definition field_values (key : string) (query : Doc) (docs : list Doc) : list value :=
  (fun doc => get doc key (VInt 0)) <$> filter (fun doc => matches query doc = true) docs.

Definition wallet_of (user_id : string) (balance : Z) : res Wallet.t :=
  res_bind (Float.int_div_1000 balance) (fun dollars =>
    Ok {| Wallet.user_id := user_id;
          Wallet.points := balance;
          Wallet.dollars := Float.round2 dollars;
          Wallet.can_withdraw := Float.geb dollars Float.f10;
          Wallet.min_withdrawal_dollars := Float.f10 |}).

(** A store to run the handlers on: one user with an approved
    submission of 12000 points and a pending one, another with
    redemptions above the earnings. *)
Definition alice : string := "64b7f0c2a1d3e4f5a6b7c8d9".
Definition bob : string := "64b7f0c2a1d3e4f5a6b7c8da".
Definition carol : string := "64b7f0c2a1d3e4f5a6b7c8db".
Definition tree : string := "64b7f0c2a1d3e4f5a6b7c8e0".

Definition sample_db : Database :=
  {| collections :=
       {[ "user" :=
            [ {[ "_id" := VOid 31170871365409138629861165273%N; "name" := VStr "Alice"; "age" := VInt 30 ]} ];
          "challenge" :=
            [ {[ "_id" := VOid 31170871365409138629861165280%N; "title" := VStr "Plant a tree";
                 "audience" := VStr "adult"; "points" := VInt 1000; "is_active" := VBool true ]};
              {[ "_id" := VOid 31170871365409138629861165281%N; "title" := VStr "Sort the waste";
                 "audience" := VStr "all"; "points" := VInt 200; "is_active" := VBool true ]};
              {[ "_id" := VOid 31170871365409138629861165282%N; "title" := VStr "Water a plant";
                 "audience" := VStr "kid"; "points" := VInt 100; "is_active" := VBool false ]} ];
          "submission" :=
            [ {[ "_id" := VOid 1%N; "user_id" := VStr alice; "points_awarded" := VInt 12000;
                 "status" := VStr "approved" ]};
              {[ "_id" := VOid 2%N; "user_id" := VStr alice; "points_awarded" := VInt 700;
                 "status" := VStr "pending" ]};
              {[ "_id" := VOid 3%N; "user_id" := VStr bob; "points_awarded" := VInt 100;
                 "status" := VStr "approved" ]} ];
          "wallettransaction" :=
            [ {[ "_id" := VOid 4%N; "user_id" := VStr bob; "type" := VStr "redeem";
                 "points" := VInt 10000 ]} ] ]};
     next_oid := 5 |}.

(** ** Auxiliary definitions for the statements *)

Definition withdrawal_note (for_under18 : option bool) : string :=
  if truthy_flag for_under18 then "Parent-approved withdrawal" else "Withdrawal".

(** The transaction a successful redemption records. *)
Definition redeem_txn (payload : RedeemRequest.t) : WalletTransaction.t :=
  {| WalletTransaction.user_id := RedeemRequest.user_id payload;
     WalletTransaction.type := "redeem";
     WalletTransaction.points := RedeemRequest.points payload;
     WalletTransaction.note := Some (withdrawal_note (RedeemRequest.for_under18 payload)) |}.

(** The stored transaction, as the collection holds it. *)
Definition redeem_doc (d : Database) (payload : RedeemRequest.t) : Doc :=
  <["_id" := VOid (next_oid d)]> (model_dump (redeem_txn payload)).

Definition redeem_10000 : RedeemRequest.t :=
  {| RedeemRequest.user_id := alice; RedeemRequest.points := 10000;
     RedeemRequest.for_under18 := None |}.

Definition redeem_5000 : RedeemRequest.t :=
  {| RedeemRequest.user_id := alice; RedeemRequest.points := 5000;
     RedeemRequest.for_under18 := Some true |}.

(** C5 as it is stated: a redemption above the balance is refused with
    an error other than the one for a non-positive amount. *)
Definition excess_error_is_distinct : Prop :=
  forall (d : Database) (over nonpos : RedeemRequest.t) (w : Wallet.t) (e e' : exn),
    RedeemRequest.user_id nonpos = RedeemRequest.user_id over ->
    get_wallet (RedeemRequest.user_id over) (Some d) = (Ok w, Some d) ->
    Wallet.points w < RedeemRequest.points over ->
    RedeemRequest.points nonpos <= 0 ->
    fst (redeem_points over (Some d)) = Raise e ->
    fst (redeem_points nonpos (Some d)) = Raise e' ->
    e <> e'.

Definition redeem_20000 : RedeemRequest.t :=
  {| RedeemRequest.user_id := alice; RedeemRequest.points := 20000;
     RedeemRequest.for_under18 := None |}.

Definition redeem_minus_5 : RedeemRequest.t :=
  {| RedeemRequest.user_id := alice; RedeemRequest.points := -5;
     RedeemRequest.for_under18 := None |}.

Definition with_parent_email (payload : User.t) (parent_email : option string) : User.t :=
  {| User.name := User.name payload;
     User.age := User.age payload;
     User.email := User.email payload;
     User.parent_email := parent_email;
     User.is_parent_approved := User.is_parent_approved payload |}.

Definition teenager : User.t :=
  {| User.name := "Sam"; User.age := 15; User.email := None;
     User.parent_email := None; User.is_parent_approved := false |}.

Definition new_submission (payload : SubmitRequest.t) (p : Z) : Submission.t :=
  {| Submission.user_id := SubmitRequest.user_id payload;
     Submission.challenge_id := SubmitRequest.challenge_id payload;
     Submission.proof_url := None;
     Submission.notes := SubmitRequest.notes payload;
     Submission.points_awarded := p;
     Submission.status := "approved" |}.

Definition no_coercion : value -> option Z := fun _ => None.

Definition submit_tree : SubmitRequest.t :=
  {| SubmitRequest.user_id := alice; SubmitRequest.challenge_id := tree;
     SubmitRequest.notes := Some "planted an oak" |}.

Definition submit_unknown_challenge : SubmitRequest.t :=
  {| SubmitRequest.user_id := alice; SubmitRequest.challenge_id := carol;
     SubmitRequest.notes := None |}.

Definition submit_malformed : SubmitRequest.t :=
  {| SubmitRequest.user_id := alice; SubmitRequest.challenge_id := "not-an-id";
     SubmitRequest.notes := None |}.

(** An id of 22 hexadecimal digits padded with two spaces: accepted by
    [ObjectId], and the id of no stored user. *)
Definition padded : string := "64b7f0c2a1d3e4f5a6b7c8  ".

Definition submit_padded : SubmitRequest.t :=
  {| SubmitRequest.user_id := padded; SubmitRequest.challenge_id := tree;
     SubmitRequest.notes := None |}.

(** The documents stored for a list of challenges, the first under the
    object id [o]. *)
Fixpoint stored (o : N) (items : list Challenge.t) : list Doc :=
  match items with
  | [] => []
  | c :: rest => <["_id" := VOid o]> (model_dump c) :: stored (N.succ o) rest
  end.

Definition insert_challenges (items : list Challenge.t) (d : Database) : Database :=
  fold_left (fun d c => insert_one "challenge" (model_dump c) d) items d.

Definition seed_body (item : Challenge.t) : M unit :=
  c ← lift (Challenge.new item);
  _ ← create_document "challenge" c;
  mret tt.

Definition is_active (doc : Doc) : bool :=
  bool_decide (doc !! "is_active" = Some (VBool true)).

Definition for_audience (a : string) (doc : Doc) : bool :=
  Ledger.has_str "audience" a doc.

(** The query [list_challenges] builds. *)
Definition challenge_query (audience : option string) : Doc :=
  match audience with
  | Some a =>
      if bool_decide (a ∈ ["kid"; "adult"])
      then <["audience" := VStr a]> {[ "is_active" := VBool true ]}
      else {[ "is_active" := VBool true ]}
  | None => {[ "is_active" := VBool true ]}
  end.

Definition listed (sel : Doc -> bool) (d : Database) : list (option Doc) :=
  (fun doc => to_str_id (Some doc))
    <$> take 100 (filter (fun doc => sel doc = true) (collection d "challenge")).

(** ** Requests and what they leave in the store *)

(** The routes that use the database. *)
Inductive request :=
| Seed
| ListChallenges (audience : option string)
| CreateUser (payload : User.t)
| Submit (payload : SubmitRequest.t)
| GetWallet (user_id : string)
| Redeem (payload : RedeemRequest.t).

(** The handle after a request was served. *)
Definition serve (coerce : value -> option Z) (r : request) (h : option Database)
    : option Database :=
  match r with
  | Seed => snd (seed_challenges h)
  | ListChallenges audience => snd (list_challenges audience h)
  | CreateUser payload => snd (create_user payload h)
  | Submit payload => snd (submit_challenge coerce payload h)
  | GetWallet user_id => snd (get_wallet user_id h)
  | Redeem payload => snd (redeem_points payload h)
  end.

(** The user a request credits or debits. *)
Definition account_of (r : request) : option string :=
  match r with
  | Submit payload => Some (SubmitRequest.user_id payload)
  | Redeem payload => Some (RedeemRequest.user_id payload)
  | _ => None
  end.

(** No user has redeemed more than was earned. *)
Definition solvent (d : Database) : Prop :=
  forall user_id, Ledger.redeemed d user_id <= Ledger.earned d user_id.

(** [k / 1000.0 < 10.0] for the integers below [n]. *)
Definition under_minimum (k : Z) : bool :=
  Float.ltb (Float.div (Float.of_Z k) Float.f1000) Float.f10.

Fixpoint all_under_minimum (n : nat) : bool :=
  match n with
  | O => true
  | S n' => under_minimum (Z.of_nat n') && all_under_minimum n'
  end.

Definition e500 : exn := HTTPException 500 "Database not configured".

Definition empty_db : Database := {| collections := ∅; next_oid := 0 |}.

(** The submission document as the collection holds it. *)
Definition submission_doc (d : Database) (payload : SubmitRequest.t) (p : Z) : Doc :=
  <["_id" := VOid (next_oid d)]> (model_dump (new_submission payload p)).

(** [sample_db] after a further approved submission of 30000 points by
    Alice, and after one and two redemptions of 10000 points. *)
Definition rich_db : Database :=
  insert_one "submission"
    {[ "user_id" := VStr alice; "points_awarded" := VInt 30000;
       "status" := VStr "approved" ]} sample_db.

Definition rich_db_1 : Database :=
  insert_one "wallettransaction" (model_dump (redeem_txn redeem_10000)) rich_db.

Definition rich_db_2 : Database :=
  insert_one "wallettransaction" (model_dump (redeem_txn redeem_10000)) rich_db_1.

Definition with_flag (payload : RedeemRequest.t) (flag : option bool) : RedeemRequest.t :=
  {| RedeemRequest.user_id := RedeemRequest.user_id payload;
     RedeemRequest.points := RedeemRequest.points payload;
     RedeemRequest.for_under18 := flag |}.

(** [sample_db] with two more challenges: one without points, one with
    negative points. *)
Definition odd_db : Database :=
  insert_one "challenge" {[ "title" := VStr "Debt"; "points" := VInt (-50) ]}
    (insert_one "challenge" {[ "title" := VStr "No points" ]} sample_db).

Definition submit_no_points : SubmitRequest.t :=
  {| SubmitRequest.user_id := alice; SubmitRequest.challenge_id := "000000000000000000000005";
     SubmitRequest.notes := None |}.

Definition submit_debt : SubmitRequest.t :=
  {| SubmitRequest.user_id := alice; SubmitRequest.challenge_id := "000000000000000000000006";
     SubmitRequest.notes := None |}.

Definition adult : User.t :=
  {| User.name := "Dana"; User.age := 34; User.email := Some "dana@example.org";
     User.parent_email := None; User.is_parent_approved := false |}.

(** ** main.py: the health check *)

(** The dict returned by [test_database]. *)
Module Health.
Record t := {
  backend : string;
  database : string;
  database_url : option string;
  database_name : option string;
  connection_status : string;
  collections : list string;
}.
End Health.

(** [os.getenv(name)] and what the driver answers are inputs of the
    check: [db_name d] is [db.name] when the handle has that attribute,
    [list_collection_names d] the listing or the exception it raised,
    and [message e] is [str(e)[:50]].  Nothing else in the outer [try]
    can raise, so its handler is never entered. *)
Definition test_database (getenv : string -> option string)
    (db_name : Database -> option string)
    (list_collection_names : Database -> res (list string))
    (message : exn -> string) (db : option Database) : Health.t :=
  let response :=
    {| Health.backend := "✅ Running";
       Health.database := "❌ Not Available";
       Health.database_url := None;
       Health.database_name := None;
       Health.connection_status := "Not Connected";
       Health.collections := [] |} in
  let response :=
    match db with
    | Some d =>
        let response :=
          {| Health.backend := Health.backend response;
             Health.database := "✅ Available";
             Health.database_url :=
               Some (if truthy_str (getenv "DATABASE_URL") then "✅ Set" else "❌ Not Set");
             Health.database_name :=
               Some (match db_name d with Some n => n | None => "Unknown" end);
             Health.connection_status := "Connected";
             Health.collections := Health.collections response |} in
        match list_collection_names d with
        | Ok names =>
            {| Health.backend := Health.backend response;
               Health.database := "✅ Connected & Working";
               Health.database_url := Health.database_url response;
               Health.database_name := Health.database_name response;
               Health.connection_status := Health.connection_status response;
               Health.collections := names |}
        | Raise e =>
            {| Health.backend := Health.backend response;
               Health.database := "⚠️ Connected but Error: " +:+ message e;
               Health.database_url := Health.database_url response;
               Health.database_name := Health.database_name response;
               Health.connection_status := Health.connection_status response;
               Health.collections := Health.collections response |}
        end
    | None =>
        {| Health.backend := Health.backend response;
           Health.database := "⚠️ Available but not initialized";
           Health.database_url := Health.database_url response;
           Health.database_name := Health.database_name response;
           Health.connection_status := Health.connection_status response;
           Health.collections := Health.collections response |}
    end in
  {| Health.backend := Health.backend response;
     Health.database := Health.database response;
     Health.database_url :=
       Some (if truthy_str (getenv "DATABASE_URL") then "✅ Set" else "❌ Not Set");
     Health.database_name :=
       Some (if truthy_str (getenv "DATABASE_NAME") then "✅ Set" else "❌ Not Set");
     Health.connection_status := Health.connection_status response;
     Health.collections := Health.collections response |}.

Definition has_object_id (doc : Doc) : bool :=
  match doc !! "_id" with
  | Some (VOid o) => (o <? 2 ^ 96)%N
  | _ => false
  end.

Definition no_env : string -> option string := fun _ => None.

Definition listing_fails : Database -> res (list string) := fun _ => Raise DatabaseUnavailable.

Definition exn_text : exn -> string := fun _ => "connection refused".

Definition no_name : Database -> option string := fun _ => None.

(** ** Rounding to hundredths, in exact arithmetic *)

Module Cents.

(** [n] hundredths are a nearest two-digit decimal to the magnitude
    [m * 2^e] of [x]: they differ from it by at most half a hundredth. *)
Definition nearest (x : Float.float) (n : Z) : Prop :=
  match x with
  | S754_zero _ => n = 0
  | S754_finite _ m e =>
      match e with
      | Zneg p => 2 * Z.abs (100 * Zpos m - n * 2 ^ Zpos p) <= 2 ^ Zpos p
      | _ => n = 100 * Zpos m * 2 ^ e
      end
  | _ => False
  end.

Definition sign (x : Float.float) : bool :=
  match x with
  | S754_zero s | S754_infinity s | S754_finite s _ _ => s
  | S754_nan => false
  end.

(** The float nearest to [n / 100], with the sign [s]. *)
Definition to_float (s : bool) (n : Z) : Float.float :=
  match n with
  | Zpos p => SFdiv Float.prec Float.emax (S754_finite s p 0) (S754_finite false 100 0)
  | _ => S754_zero s
  end.

(** [y] is [x] rounded to two decimal places: the float of a nearest
    number of hundredths; an infinity or a NaN is left as it is. *)
Definition rounded (x y : Float.float) : Prop :=
  match x with
  | S754_zero _ | S754_finite _ _ _ => exists n, nearest x n /\ y = to_float (sign x) n
  | _ => y = x
  end.

End Cents.

(** A store for the scenarios of the wallet: Erin has two approved
    submissions of 100 and 1000 points, Frank one of 1235 points. *)
Definition erin : string := "64b7f0c2a1d3e4f5a6b7c8dc".
Definition frank : string := "64b7f0c2a1d3e4f5a6b7c8dd".

Definition scenario_db : Database :=
  {| collections :=
       {[ "submission" :=
            [ {[ "_id" := VOid 1%N; "user_id" := VStr erin; "points_awarded" := VInt 100;
                 "status" := VStr "approved" ]};
              {[ "_id" := VOid 2%N; "user_id" := VStr erin; "points_awarded" := VInt 1000;
                 "status" := VStr "approved" ]};
              {[ "_id" := VOid 3%N; "user_id" := VStr frank; "points_awarded" := VInt 1235;
                 "status" := VStr "approved" ]} ] ]};
     next_oid := 4 |}.

(** Requests served from an empty store: the seed, a new user, twelve
    submissions of the 1000-point challenge and two redemptions of
    10000 points, of which the second is refused. *)
Definition first_user : string := "000000000000000000000006".

Definition submit_plant : SubmitRequest.t :=
  {| SubmitRequest.user_id := first_user;
     SubmitRequest.challenge_id := "000000000000000000000003";
     SubmitRequest.notes := None |}.

Definition redeem_first : RedeemRequest.t :=
  {| RedeemRequest.user_id := first_user; RedeemRequest.points := 10000;
     RedeemRequest.for_under18 := None |}.

Definition busy_requests : list request :=
  [Seed; CreateUser adult] ++ repeat (Submit submit_plant) 12
  ++ [GetWallet first_user; Redeem redeem_first; Redeem redeem_first].

(** The [n] low bytes of [o], most significant first. *)
Fixpoint bytes_of (n : nat) (o : N) : list N :=
  match n with
  | O => []
  | S n' => bytes_of n' (o / 256)%N ++ [(o mod 256)%N]
  end.

(** * Properties *)

(** ** Results, filters and sums *)

Lemma matches_empty (doc : Doc) : matches ∅ doc = true.
Proof. unfold matches. apply bool_decide_eq_true, map_Forall_empty. Qed.

Lemma matches_insert (query : Doc) (k : string) (v : value) (doc : Doc) :
  query !! k = None ->
  matches (<[k := v]> query) doc = field_matches (doc !! k) v && matches query doc.
Proof.
  intros Hk. unfold matches. apply eq_true_iff_eq.
  rewrite andb_true_iff, !bool_decide_eq_true, map_Forall_insert by done.
  tauto.
Qed.

Lemma matches_singleton (k : string) (v : value) (doc : Doc) :
  matches {[ k := v ]} doc = field_matches (doc !! k) v.
Proof.
  rewrite <- insert_empty, matches_insert by apply lookup_empty.
  by rewrite matches_empty, andb_true_r.
Qed.

Lemma matches_pair (k1 k2 : string) (v1 v2 : value) (doc : Doc) :
  k1 <> k2 ->
  matches {[ k1 := v1; k2 := v2 ]} doc
  = field_matches (doc !! k1) v1 && field_matches (doc !! k2) v2.
Proof.
  intros Hne. rewrite matches_insert by (by rewrite lookup_singleton_ne).
  by rewrite matches_singleton.
Qed.

Lemma field_matches_str (o : option value) (s : string) :
  field_matches o (VStr s) = bool_decide (o = Some (VStr s)).
Proof.
  destruct o as [w|]; simpl.
  - apply bool_decide_ext. split; congruence.
  - done.
Qed.

Lemma approved_of_matches (user_id : string) (doc : Doc) :
  matches (approved_of user_id) doc = Ledger.approved_submission user_id doc.
Proof.
  unfold approved_of. rewrite matches_pair by discriminate.
  by rewrite !field_matches_str.
Qed.

Lemma redeems_of_matches (user_id : string) (doc : Doc) :
  matches (redeems_of user_id) doc = Ledger.redemption user_id doc.
Proof.
  unfold redeems_of. rewrite matches_pair by discriminate.
  by rewrite !field_matches_str.
Qed.

Lemma field_values_nil (key : string) (query : Doc) : field_values key query [] = [].
Proof. reflexivity. Qed.

Lemma field_values_cons (key : string) (query doc : Doc) (docs : list Doc) :
  field_values key query (doc :: docs)
  = if matches query doc then get doc key (VInt 0) :: field_values key query docs
    else field_values key query docs.
Proof.
  unfold field_values. rewrite filter_cons.
  destruct (matches query doc) eqn:E.
  - by rewrite decide_True.
  - by rewrite decide_False by discriminate.
Qed.

Lemma field_values_app (key : string) (query : Doc) (docs1 docs2 : list Doc) :
  field_values key query (docs1 ++ docs2)
  = (field_values key query docs1 ++ field_values key query docs2)%list.
Proof. unfold field_values. by rewrite filter_app, fmap_app. Qed.

Lemma sum_from_app (vs1 vs2 : list value) (acc : Z) :
  sum_from acc (vs1 ++ vs2) = res_bind (sum_from acc vs1) (fun acc' => sum_from acc' vs2).
Proof.
  revert acc. induction vs1 as [|v vs1 IH]; intros acc; simpl; [done|].
  destruct (py_add acc v); simpl; [apply IH | done].
Qed.

(** Over integer fields the running sum of [sum] is the ledger's total. *)
Lemma sum_from_total (sel : Doc -> bool) (key : string) (query : Doc) (docs : list Doc) (acc : Z) :
  (forall doc, matches query doc = sel doc) ->
  forallb (Ledger.int_or_absent key) docs = true ->
  sum_from acc (field_values key query docs) = Ok (acc + Ledger.total sel key docs).
Proof.
  intros Hsel. revert acc. induction docs as [|doc docs IH]; intros acc Hty.
  - simpl. apply (f_equal Ok). lia.
  - simpl in Hty. apply andb_true_iff in Hty as [Hdoc Hty].
    rewrite field_values_cons, Hsel. simpl.
    destruct (sel doc).
    + unfold Ledger.int_or_absent in Hdoc. unfold get, Ledger.int_field. simpl.
      destruct (doc !! key) as [[| |z| |]|]; try discriminate; simpl;
        rewrite IH by done; apply (f_equal Ok); lia.
    + rewrite IH by done. apply (f_equal Ok). lia.
Qed.

(** Nothing selected, nothing summed. *)
Lemma field_values_none (sel : Doc -> bool) (key : string) (query : Doc) (docs : list Doc) :
  (forall doc, matches query doc = sel doc) ->
  forallb (fun doc => negb (sel doc)) docs = true ->
  field_values key query docs = [].
Proof.
  intros Hsel. induction docs as [|doc docs IH]; intros Hno; [done|].
  simpl in Hno. apply andb_true_iff in Hno as [Hdoc Hno].
  rewrite field_values_cons, Hsel.
  apply negb_true_iff in Hdoc. rewrite Hdoc. by apply IH.
Qed.

(** ** Floats *)

Lemma float_ge_not_lt (x y : Float.float) :
  Float.geb x y = true -> Float.ltb x y = false.
Proof.
  unfold Float.geb, Float.ltb, SFleb, SFltb.
  destruct x as [sx|sx| |sx mx ex], y as [sy|sy| |sy my ey]; simpl;
    try done; try (by destruct sx); try (by destruct sy); try (by destruct sx, sy).
  destruct sx, sy; try done.
  - rewrite (Z.compare_antisym ey ex).
    destruct (ey ?= ex)%Z eqn:E; simpl; try done.
    change (Pos.compare_cont Eq mx my) with (Pos.compare mx my).
    change (Pos.compare_cont Eq my mx) with (Pos.compare my mx).
    rewrite (Pos.compare_antisym my mx).
    by destruct (my ?= mx)%positive.
  - rewrite (Z.compare_antisym ey ex).
    destruct (ey ?= ex)%Z eqn:E; simpl; try done.
    change (Pos.compare_cont Eq mx my) with (Pos.compare mx my).
    change (Pos.compare_cont Eq my mx) with (Pos.compare my mx).
    rewrite (Pos.compare_antisym my mx).
    by destruct (my ?= mx)%positive.
Qed.

Lemma of_int_bound (z : Z) :
  Z.abs z < Float.overflow_bound -> Float.of_int z = Ok (Float.of_Z z).
Proof.
  intros H. unfold Float.of_int.
  destruct (Z.ltb_spec (Z.abs z) Float.overflow_bound); [done | lia].
Qed.

Lemma of_int_ok (z : Z) (x : Float.float) :
  Float.of_int z = Ok x -> Z.abs z < Float.overflow_bound /\ x = Float.of_Z z.
Proof.
  unfold Float.of_int.
  destruct (Z.ltb_spec (Z.abs z) Float.overflow_bound); [|done].
  intros [= <-]. done.
Qed.

Lemma int_div_1000_bound (z : Z) :
  Z.abs z < Float.overflow_bound ->
  Float.int_div_1000 z = Ok (Float.div (Float.of_Z z) Float.f1000).
Proof. intros H. unfold Float.int_div_1000. by rewrite of_int_bound. Qed.

Lemma int_div_1000_ok (z : Z) (x : Float.float) :
  Float.int_div_1000 z = Ok x ->
  Z.abs z < Float.overflow_bound /\ x = Float.div (Float.of_Z z) Float.f1000.
Proof.
  unfold Float.int_div_1000.
  destruct (Float.of_int z) as [y|] eqn:E; simpl; [|done].
  intros [= <-]. apply of_int_ok in E as [? ->]. done.
Qed.

(** ** Rounding to two decimals *)

Lemma div_half_even_nearest (n d : Z) :
  0 < d -> 2 * Z.abs (n - Float.div_half_even n d * d) <= d.
Proof.
  intros Hd. unfold Float.div_half_even.
  pose proof (Z.div_mod n d) as Hdm. pose proof (Z.mod_pos_bound n d Hd) as Hr.
  destruct (Z.compare_spec (2 * (n mod d)) d) as [Heq|Hlt|Hgt];
    [destruct (Z.even (n / d))| |]; nia.
Qed.

(** [round2] gives the float of a nearest number of hundredths. *)
Lemma round2_rounded (x : Float.float) : Cents.rounded x (Float.round2 x).
Proof.
  destruct x as [s|s| |s m e]; cbn [Cents.rounded Float.round2]; try done.
  - by exists 0.
  - eexists. split; [|reflexivity].
    cbn [Cents.nearest]. destruct e as [|p|p]; [done | done |].
    apply div_half_even_nearest. by apply Z.pow_pos_nonneg.
Qed.

Lemma float_lt_not_ge (x y : Float.float) :
  Float.ltb x y = true -> Float.geb x y = false.
Proof.
  intros Hlt. destruct (Float.geb x y) eqn:Hge; [|done].
  apply float_ge_not_lt in Hge. congruence.
Qed.

(** [k / 1000.0 < 10.0] for every [k] from 0 to 9999, by evaluation. *)
Lemma all_under_minimum_spec (n : nat) (k : Z) :
  all_under_minimum n = true -> 0 <= k < Z.of_nat n -> under_minimum k = true.
Proof.
  induction n as [|n IH]; [lia|].
  cbn [all_under_minimum]. intros Hall Hk. apply andb_true_iff in Hall as [Hn Hall].
  destruct (decide (k = Z.of_nat n)) as [->|Hne]; [done|].
  apply IH; [done | lia].
Qed.

Lemma under_10000 (k : Z) : 0 <= k < 10000 -> under_minimum k = true.
Proof.
  intros Hk. apply (all_under_minimum_spec (Z.to_nat 10000));
    [by vm_compute | rewrite Z2Nat.id; lia].
Qed.

(** ** The store *)

Lemma collection_insert_one (name : string) (doc : Doc) (d : Database) :
  collection (insert_one name doc d) name
  = (collection d name ++ [<["_id" := VOid (next_oid d)]> doc])%list.
Proof. unfold collection at 1, insert_one. simpl. by rewrite lookup_insert_eq. Qed.

Lemma collection_insert_one_ne (name other : string) (doc : Doc) (d : Database) :
  name <> other ->
  collection (insert_one name doc d) other = collection d other.
Proof.
  intros Hne. unfold collection, insert_one. simpl. by rewrite lookup_insert_ne.
Qed.

Lemma next_oid_insert_one (name : string) (doc : Doc) (d : Database) :
  next_oid (insert_one name doc d) = N.succ (next_oid d).
Proof. reflexivity. Qed.

(** ** get_wallet *)

Ltac run :=
  unfold mbind, M_bind, mret, M_ret, not_configured, raise, lift, db_is_None,
    try_except, find, find_one, count_documents, get_documents, with_collection,
    create_document.

(** What [get_wallet] computes on a configured database. *)
Lemma get_wallet_run (d : Database) (user_id : string) :
  get_wallet user_id (Some d) =
  (match ObjectId.of_str user_id with
   | Ok _ =>
       res_bind (sum (field_values "points_awarded" (approved_of user_id)
                        (collection d "submission"))) (fun earned =>
       res_bind (sum (field_values "points" (redeems_of user_id)
                        (collection d "wallettransaction"))) (fun redeemed =>
       wallet_of user_id (Z.max 0 (earned - redeemed))))
   | Raise _ => Raise (HTTPException 400 "Invalid user id")
   end, Some d).
Proof.
  unfold get_wallet. run.
  destruct (ObjectId.of_str user_id); [|done].
  fold (approved_of user_id) (redeems_of user_id).
  fold (field_values "points_awarded" (approved_of user_id) (collection d "submission")).
  fold (field_values "points" (redeems_of user_id) (collection d "wallettransaction")).
  destruct (sum _) as [e|]; [|done]. cbn [res_bind].
  destruct (sum _) as [r|]; [|done]. cbn [res_bind].
  unfold wallet_of. destruct (Float.int_div_1000 _); done.
Qed.

Lemma get_wallet_None (user_id : string) :
  get_wallet user_id None = (Raise (HTTPException 500 "Database not configured"), None).
Proof. reflexivity. Qed.

(** [get_wallet] only reads. *)
Lemma get_wallet_reads (user_id : string) (h : option Database) :
  snd (get_wallet user_id h) = h.
Proof. destruct h as [d|]; [by rewrite get_wallet_run | done]. Qed.

(** A wallet is returned exactly when the id is well formed, both sums
    are defined and the balance converts to a float. *)
Lemma get_wallet_ok (d : Database) (user_id : string) (w : Wallet.t) (h : option Database) :
  get_wallet user_id (Some d) = (Ok w, h) ->
  exists earned redeemed x,
    ObjectId.is_valid user_id = true
    /\ sum (field_values "points_awarded" (approved_of user_id) (collection d "submission")) = Ok earned
    /\ sum (field_values "points" (redeems_of user_id) (collection d "wallettransaction")) = Ok redeemed
    /\ Float.int_div_1000 (Z.max 0 (earned - redeemed)) = Ok x
    /\ w = {| Wallet.user_id := user_id;
              Wallet.points := Z.max 0 (earned - redeemed);
              Wallet.dollars := Float.round2 x;
              Wallet.can_withdraw := Float.geb x Float.f10;
              Wallet.min_withdrawal_dollars := Float.f10 |}
    /\ h = Some d.
Proof.
  rewrite get_wallet_run. unfold ObjectId.is_valid.
  destruct (ObjectId.of_str user_id); [|done].
  destruct (sum _) as [e|]; [|done].
  destruct (sum _) as [r|]; [|done].
  cbn [res_bind]. unfold wallet_of.
  destruct (Float.int_div_1000 _) as [x|] eqn:Ex; [|done].
  cbn [res_bind]. intros [= <- <-]. by exists e, r, x.
Qed.

Lemma get_wallet_typed (d : Database) (user_id : string) :
  ObjectId.is_valid user_id = true ->
  Ledger.typed d = true ->
  get_wallet user_id (Some d) = (wallet_of user_id (Ledger.balance d user_id), Some d).
Proof.
  intros Hid Hty. rewrite get_wallet_run. unfold ObjectId.is_valid in Hid.
  destruct (ObjectId.of_str user_id); [|done].
  apply andb_true_iff in Hty as [Hsub Htxn].
  unfold sum.
  rewrite (sum_from_total (Ledger.approved_submission user_id))
    by (done || apply approved_of_matches).
  rewrite (sum_from_total (Ledger.redemption user_id))
    by (done || apply redeems_of_matches).
  done.
Qed.

Lemma wallet_of_bound (user_id : string) (b : Z) :
  Z.abs b < Float.overflow_bound ->
  wallet_of user_id b =
  Ok {| Wallet.user_id := user_id;
        Wallet.points := b;
        Wallet.dollars := Float.round2 (Float.div (Float.of_Z b) Float.f1000);
        Wallet.can_withdraw := Float.geb (Float.div (Float.of_Z b) Float.f1000) Float.f10;
        Wallet.min_withdrawal_dollars := Float.f10 |}.
Proof. intros Hb. unfold wallet_of. by rewrite int_div_1000_bound. Qed.

Lemma balance_nonneg (d : Database) (user_id : string) : 0 <= Ledger.balance d user_id.
Proof. unfold Ledger.balance. lia. Qed.

(** C1. On a configured database whose ledger records hold integer
    points, and for a well-formed user id, [get_wallet] returns, without
    writing, a wallet whose points are [max(0, earned - redeemed)]:
    earned is the sum of [points_awarded] over the user's approved
    submissions and redeemed the sum of [points] over the user's redeem
    transactions.  The points are never negative.  (The balance has to
    be below the bound at which its conversion to a float overflows.) *)
Theorem get_wallet_balance (d : Database) (user_id : string) :
  ObjectId.is_valid user_id = true ->
  Ledger.typed d = true ->
  Ledger.earned d user_id - Ledger.redeemed d user_id < Float.overflow_bound ->
  exists w,
    get_wallet user_id (Some d) = (Ok w, Some d)
    /\ Wallet.points w = Z.max 0 (Ledger.earned d user_id - Ledger.redeemed d user_id)
    /\ 0 <= Wallet.points w.
Proof.
  intros Hid Hty Hb.
  assert (Hov : 0 < Float.overflow_bound) by done.
  rewrite get_wallet_typed by done.
  rewrite wallet_of_bound by (unfold Ledger.balance; lia).
  eexists. split; [reflexivity|]. simpl. unfold Ledger.balance. lia.
Qed.

Lemma get_wallet_balance_witness :
  exists w,
    get_wallet bob (Some sample_db) = (Ok w, Some sample_db)
    /\ Wallet.points w = Z.max 0 (Ledger.earned sample_db bob - Ledger.redeemed sample_db bob)
    /\ 0 <= Wallet.points w.
Proof. apply (get_wallet_balance sample_db bob); vm_compute; reflexivity. Defined.

(** C2. The wallet's derived fields come from its points [b], the
    balance of the ledger: [dollars] is [b / 1000.0] rounded to two
    decimal places, that is the float of a number of hundredths
    nearest to it, and [can_withdraw] is [b / 1000.0 >= 10.0], which
    is false below 10000 points.  A user with no approved submission
    and no redeem transaction has balance 0, 0.0 dollars and cannot
    withdraw. *)
Theorem get_wallet_derived_fields (d : Database) (user_id : string) :
  ObjectId.is_valid user_id = true ->
  (Ledger.typed d = true ->
   Ledger.earned d user_id - Ledger.redeemed d user_id < Float.overflow_bound ->
   exists w,
     get_wallet user_id (Some d) = (Ok w, Some d)
     /\ Wallet.points w = Ledger.balance d user_id
     /\ Cents.rounded (Float.div (Float.of_Z (Wallet.points w)) Float.f1000)
          (Wallet.dollars w)
     /\ Wallet.can_withdraw w
        = Float.geb (Float.div (Float.of_Z (Wallet.points w)) Float.f1000) Float.f10
     /\ (Wallet.points w < 10000 -> Wallet.can_withdraw w = false))
  /\ (Ledger.no_activity d user_id = true ->
      exists w,
        get_wallet user_id (Some d) = (Ok w, Some d)
        /\ Wallet.points w = 0
        /\ Wallet.dollars w = S754_zero false
        /\ Wallet.can_withdraw w = false).
Proof.
  intros Hid. split.
  - intros Hty Hb.
    assert (Hov : 0 < Float.overflow_bound) by done.
    rewrite get_wallet_typed by done.
    rewrite wallet_of_bound by (unfold Ledger.balance; lia).
    eexists. split; [reflexivity|].
    cbn [Wallet.points Wallet.dollars Wallet.can_withdraw].
    split; [done|]. split; [apply round2_rounded|]. split; [done|].
    intros Hlow. apply float_lt_not_ge, under_10000.
    pose proof (balance_nonneg d user_id). lia.
  - intros Hno. apply andb_true_iff in Hno as [Hsub Htxn].
    rewrite get_wallet_run. unfold ObjectId.is_valid in Hid.
    destruct (ObjectId.of_str user_id); [|done].
    rewrite (field_values_none (Ledger.approved_submission user_id))
      by (done || apply approved_of_matches).
    rewrite (field_values_none (Ledger.redemption user_id))
      by (done || apply redeems_of_matches).
    eexists. split; [reflexivity|]. done.
Qed.

Lemma get_wallet_derived_fields_witness :
  (exists w,
     get_wallet erin (Some scenario_db) = (Ok w, Some scenario_db)
     /\ Wallet.points w = 1100
     /\ Wallet.dollars w = Float.div (Float.of_Z 11) (Float.of_Z 10)
     /\ Wallet.can_withdraw w = false)
  /\ (exists w,
        get_wallet frank (Some scenario_db) = (Ok w, Some scenario_db)
        /\ Wallet.points w = 1235
        /\ Wallet.dollars w = Float.div (Float.of_Z 124) (Float.of_Z 100)
        /\ Wallet.can_withdraw w = false)
  /\ (exists w,
        get_wallet alice (Some sample_db) = (Ok w, Some sample_db)
        /\ Wallet.points w = 12000
        /\ Wallet.dollars w = Float.of_Z 12
        /\ Wallet.can_withdraw w = true)
  /\ (exists w,
        get_wallet carol (Some sample_db) = (Ok w, Some sample_db)
        /\ Wallet.points w = 0
        /\ Wallet.dollars w = S754_zero false
        /\ Wallet.can_withdraw w = false).
Proof.
  split; [|split; [|split]].
  - destruct (get_wallet_derived_fields scenario_db erin) as [Hfields _]; [reflexivity|].
    destruct Hfields as (w & Hw & Hp & _ & Hc & _); [reflexivity | by vm_compute |].
    exists w. split; [exact Hw|]. split; [by rewrite Hp|].
    rewrite Hc, Hp. rewrite get_wallet_run in Hw. vm_compute in Hw.
    injection Hw as <-. split; vm_compute; reflexivity.
  - destruct (get_wallet_derived_fields scenario_db frank) as [Hfields _]; [reflexivity|].
    destruct Hfields as (w & Hw & Hp & _ & Hc & _); [reflexivity | by vm_compute |].
    exists w. split; [exact Hw|]. split; [by rewrite Hp|].
    rewrite Hc, Hp. rewrite get_wallet_run in Hw. vm_compute in Hw.
    injection Hw as <-. split; vm_compute; reflexivity.
  - destruct (get_wallet_derived_fields sample_db alice) as [Hfields _]; [reflexivity|].
    destruct Hfields as (w & Hw & Hp & _ & Hc & _); [reflexivity | by vm_compute |].
    exists w. split; [exact Hw|]. split; [by rewrite Hp|].
    rewrite Hc, Hp. rewrite get_wallet_run in Hw. vm_compute in Hw.
    injection Hw as <-. split; vm_compute; reflexivity.
  - destruct (get_wallet_derived_fields sample_db carol) as [_ Hnone]; [reflexivity|].
    apply Hnone. reflexivity.
Defined.

(** ** redeem_points *)

Lemma redeem_points_run (d : Database) (payload : RedeemRequest.t) :
  redeem_points payload (Some d) =
  match fst (get_wallet (RedeemRequest.user_id payload) (Some d)) with
  | Raise e => (Raise e, Some d)
  | Ok wallet =>
      if (RedeemRequest.points payload <=? 0)
         || (Wallet.points wallet <? RedeemRequest.points payload)
      then (Raise (HTTPException 400 "Invalid points amount"), Some d)
      else
        match Float.int_div_1000 (RedeemRequest.points payload) with
        | Raise e => (Raise e, Some d)
        | Ok dollars =>
            if Float.ltb dollars Float.f10
            then (Raise (HTTPException 400 "Minimum withdrawal is $10"), Some d)
            else
              (Ok {[ "id" := VStr (ObjectId.to_str (next_oid d));
                     "status" := VStr "pending_payout" ]},
               Some (insert_one "wallettransaction" (model_dump (redeem_txn payload)) d))
        end
  end.
Proof.
  unfold redeem_points. run.
  pose proof (get_wallet_reads (RedeemRequest.user_id payload) (Some d)) as Hread.
  destruct (get_wallet _ (Some d)) as [[w|e] h']; simpl in Hread; subst h'; [|done].
  cbn [fst].
  destruct (Z.leb_spec (RedeemRequest.points payload) 0) as [Hpos|Hpos]; [done|].
  destruct (Wallet.points w <? RedeemRequest.points payload) eqn:Hbal; [done|].
  cbn [orb].
  destruct (Float.int_div_1000 _) as [x|]; [|done].
  destruct (Float.ltb x Float.f10); [done|].
  unfold WalletTransaction.new.
  assert ((1 <=? RedeemRequest.points payload) = true) as -> by lia.
  rewrite bool_decide_eq_true_2 by set_solver.
  done.
Qed.

Lemma redeem_doc_fields (d : Database) (payload : RedeemRequest.t) :
  redeem_doc d payload !! "_id" = Some (VOid (next_oid d))
  /\ redeem_doc d payload !! "user_id" = Some (VStr (RedeemRequest.user_id payload))
  /\ redeem_doc d payload !! "type" = Some (VStr "redeem")
  /\ redeem_doc d payload !! "points" = Some (VInt (RedeemRequest.points payload))
  /\ redeem_doc d payload !! "note"
     = Some (VStr (withdrawal_note (RedeemRequest.for_under18 payload))).
Proof.
  unfold redeem_doc, model_dump, WalletTransaction.dump, redeem_txn. cbn.
  repeat split; by simplify_map_eq.
Qed.

Lemma redeem_doc_values (d : Database) (payload : RedeemRequest.t) :
  field_values "points" (redeems_of (RedeemRequest.user_id payload)) [redeem_doc d payload]
  = [VInt (RedeemRequest.points payload)].
Proof.
  destruct (redeem_doc_fields d payload) as (_ & Hu & Ht & Hp & _).
  rewrite field_values_cons, field_values_nil, redeems_of_matches.
  unfold Ledger.redemption, Ledger.has_str, get.
  rewrite Hu, Ht, Hp. by rewrite !bool_decide_eq_true_2.
Qed.

(** C3. A redemption of [k] points, with [k] positive, at most the
    currently computed balance and [k / 1000.0 >= 10.0], succeeds: one
    transaction of type redeem for [k] points is appended and nothing
    else is written, the response carries the transaction's id and the
    status [pending_payout], and the balance computed afterwards is
    lower by exactly [k]. *)
Theorem redeem_points_success (d : Database) (payload : RedeemRequest.t) (w : Wallet.t) :
  get_wallet (RedeemRequest.user_id payload) (Some d) = (Ok w, Some d) ->
  0 < RedeemRequest.points payload ->
  RedeemRequest.points payload <= Wallet.points w ->
  Ledger.meets_minimum (RedeemRequest.points payload) ->
  exists txn d' w',
    redeem_points payload (Some d)
    = (Ok {[ "id" := VStr (ObjectId.to_str (next_oid d));
             "status" := VStr "pending_payout" ]}, Some d')
    /\ collection d' "wallettransaction"
       = (collection d "wallettransaction" ++ [txn])%list
    /\ (forall name, name <> "wallettransaction" -> collection d' name = collection d name)
    /\ txn !! "_id" = Some (VOid (next_oid d))
    /\ txn !! "user_id" = Some (VStr (RedeemRequest.user_id payload))
    /\ txn !! "type" = Some (VStr "redeem")
    /\ txn !! "points" = Some (VInt (RedeemRequest.points payload))
    /\ txn !! "note" = Some (VStr (withdrawal_note (RedeemRequest.for_under18 payload)))
    /\ get_wallet (RedeemRequest.user_id payload) (Some d') = (Ok w', Some d')
    /\ Wallet.points w' = Wallet.points w - RedeemRequest.points payload.
Proof.
  intros Hw Hpos Hle (x & Hx & Hge).
  destruct (redeem_doc_fields d payload) as (Hi & Hu & Ht & Hp & Hn).
  destruct (get_wallet_ok _ _ _ _ Hw) as (e & r & y & Hid & He & Hr & Hy & -> & _).
  cbn [Wallet.points] in *.
  set (d' := insert_one "wallettransaction" (model_dump (redeem_txn payload)) d).
  assert (Hw' : get_wallet (RedeemRequest.user_id payload) (Some d')
                = (wallet_of (RedeemRequest.user_id payload)
                     (Z.max 0 (e - r) - RedeemRequest.points payload), Some d')).
  { rewrite get_wallet_run. unfold ObjectId.is_valid in Hid.
    destruct (ObjectId.of_str _); [|done].
    unfold d'. rewrite collection_insert_one_ne by done. rewrite He. cbn [res_bind].
    rewrite collection_insert_one. fold (redeem_doc d payload).
    rewrite field_values_app, redeem_doc_values.
    unfold sum in *. rewrite sum_from_app, Hr. cbn.
    do 2 f_equal. lia. }
  apply int_div_1000_ok in Hy as [Hy _].
  rewrite wallet_of_bound in Hw' by lia.
  exists (redeem_doc d payload), d'. eexists.
  split; [|repeat split; try done].
  - rewrite redeem_points_run, Hw. cbn [fst Wallet.points].
    destruct (Z.leb_spec (RedeemRequest.points payload) 0); [lia|].
    destruct (Z.ltb_spec (Z.max 0 (e - r)) (RedeemRequest.points payload)); [lia|].
    cbn [orb]. rewrite Hx. by rewrite (float_ge_not_lt _ _ Hge).
  - apply collection_insert_one.
  - intros name Hne. by apply collection_insert_one_ne.
Qed.

Lemma redeem_points_success_witness :
  exists txn d' w',
    redeem_points redeem_10000 (Some sample_db)
    = (Ok {[ "id" := VStr (ObjectId.to_str (next_oid sample_db));
             "status" := VStr "pending_payout" ]}, Some d')
    /\ collection d' "wallettransaction"
       = (collection sample_db "wallettransaction" ++ [txn])%list
    /\ (forall name, name <> "wallettransaction" -> collection d' name = collection sample_db name)
    /\ txn !! "_id" = Some (VOid (next_oid sample_db))
    /\ txn !! "user_id" = Some (VStr alice)
    /\ txn !! "type" = Some (VStr "redeem")
    /\ txn !! "points" = Some (VInt 10000)
    /\ txn !! "note" = Some (VStr "Withdrawal")
    /\ get_wallet alice (Some d') = (Ok w', Some d')
    /\ Wallet.points w' = 12000 - 10000.
Proof.
  apply (redeem_points_success sample_db redeem_10000
           {| Wallet.user_id := alice; Wallet.points := 12000;
              Wallet.dollars := Float.round2 (Float.div (Float.of_Z 12000) Float.f1000);
              Wallet.can_withdraw := true;
              Wallet.min_withdrawal_dollars := Float.f10 |}).
  - vm_compute. reflexivity.
  - vm_compute. reflexivity.
  - vm_compute. discriminate.
  - exists (Float.div (Float.of_Z 10000) Float.f1000).
    split; vm_compute; reflexivity.
Defined.

(** Every exception of [redeem_points] is raised before the write. *)
Lemma redeem_points_raise_unchanged (h : option Database) (payload : RedeemRequest.t)
    (e : exn) (h' : option Database) :
  redeem_points payload h = (Raise e, h') -> h' = h.
Proof.
  destruct h as [d|]; [|by intros [= _ <-]].
  rewrite redeem_points_run.
  destruct (fst (get_wallet _ _)) as [w|]; [|by intros [= _ <-]].
  destruct (_ || _); [by intros [= _ <-]|].
  destruct (Float.int_div_1000 _) as [x|]; [|by intros [= _ <-]].
  destruct (Float.ltb x Float.f10); [by intros [= _ <-] | done].
Qed.

(** C4. A redemption is refused exactly when the requested [k] is not
    positive, or exceeds the currently computed balance, or has
    [k / 1000.0 < 10.0]; and whenever [redeem_points] raises, the store
    is left as it was. *)
Theorem redeem_points_rejection (h : option Database) (payload : RedeemRequest.t) :
  (forall e h', redeem_points payload h = (Raise e, h') -> h' = h)
  /\ (forall d w,
        h = Some d ->
        get_wallet (RedeemRequest.user_id payload) (Some d) = (Ok w, Some d) ->
        (is_ok (fst (redeem_points payload h)) = false
         <-> RedeemRequest.points payload <= 0
             \/ Wallet.points w < RedeemRequest.points payload
             \/ Ledger.below_minimum (RedeemRequest.points payload))).
Proof.
  split; [intros e h'; apply redeem_points_raise_unchanged|].
  intros d w -> Hw.
  destruct (get_wallet_ok _ _ _ _ Hw) as (e & r & y & _ & _ & _ & Hy & Hwe & _).
  apply int_div_1000_ok in Hy as [Hy _].
  assert (Hp : Wallet.points w = Z.max 0 (e - r)) by (by rewrite Hwe).
  rewrite redeem_points_run, Hw. cbn [fst].
  destruct (Z.leb_spec (RedeemRequest.points payload) 0) as [Hpos|Hpos];
    [cbn; split; [by left | done]|].
  destruct (Z.ltb_spec (Wallet.points w) (RedeemRequest.points payload)) as [Hbal|Hbal];
    [cbn; split; [by right; left | done]|].
  cbn [orb].
  rewrite int_div_1000_bound by lia.
  destruct (Float.ltb _ Float.f10) eqn:Hlt; cbn.
  - split; [|done]. intros _. right. right. eexists. split; [|exact Hlt].
    apply int_div_1000_bound. lia.
  - split; [done|]. intros [?|[?|(x & Hx & Hltx)]]; [lia | lia |].
    rewrite int_div_1000_bound in Hx by lia. injection Hx as <-. congruence.
Qed.

Lemma redeem_points_rejection_witness :
  (forall e h', redeem_points redeem_5000 (Some sample_db) = (Raise e, h') ->
                h' = Some sample_db)
  /\ (is_ok (fst (redeem_points redeem_5000 (Some sample_db))) = false
      <-> RedeemRequest.points redeem_5000 <= 0
          \/ 12000 < RedeemRequest.points redeem_5000
          \/ Ledger.below_minimum (RedeemRequest.points redeem_5000)).
Proof.
  destruct (redeem_points_rejection (Some sample_db) redeem_5000) as [Hraise Hiff].
  split; [exact Hraise|].
  apply (Hiff sample_db
           {| Wallet.user_id := alice; Wallet.points := 12000;
              Wallet.dollars := Float.round2 (Float.div (Float.of_Z 12000) Float.f1000);
              Wallet.can_withdraw := true;
              Wallet.min_withdrawal_dollars := Float.f10 |});
    vm_compute; reflexivity.
Defined.

(** Alice holds 12000 points: asking for 20000 and asking for -5 raise
    the very same exception. *)
Lemma excess_error_not_distinct : ~ excess_error_is_distinct.
Proof.
  intros Hclaim.
  apply (Hclaim sample_db redeem_20000 redeem_minus_5
           {| Wallet.user_id := alice; Wallet.points := 12000;
              Wallet.dollars := Float.round2 (Float.div (Float.of_Z 12000) Float.f1000);
              Wallet.can_withdraw := true;
              Wallet.min_withdrawal_dollars := Float.f10 |}
           (HTTPException 400 "Invalid points amount")
           (HTTPException 400 "Invalid points amount"));
    vm_compute; congruence.
Qed.

(** C5, amended. A redemption above the currently computed balance is
    refused, before any write, with the invalid-amount error (status
    400, "Invalid points amount"), the same error as for a non-positive
    amount; the error for an amount below the minimum withdrawal has the
    same status and another detail. *)
Theorem redeem_points_excess (d : Database) (payload : RedeemRequest.t) (w : Wallet.t) :
  get_wallet (RedeemRequest.user_id payload) (Some d) = (Ok w, Some d) ->
  Wallet.points w < RedeemRequest.points payload ->
  redeem_points payload (Some d)
  = (Raise (HTTPException 400 "Invalid points amount"), Some d)
  /\ (forall nonpos,
        RedeemRequest.user_id nonpos = RedeemRequest.user_id payload ->
        RedeemRequest.points nonpos <= 0 ->
        redeem_points nonpos (Some d)
        = (Raise (HTTPException 400 "Invalid points amount"), Some d))
  /\ (forall low,
        RedeemRequest.user_id low = RedeemRequest.user_id payload ->
        0 < RedeemRequest.points low <= Wallet.points w ->
        Ledger.below_minimum (RedeemRequest.points low) ->
        redeem_points low (Some d)
        = (Raise (HTTPException 400 "Minimum withdrawal is $10"), Some d)).
Proof.
  intros Hw Hover. repeat split.
  - rewrite redeem_points_run, Hw. cbn [fst].
    destruct (Z.ltb_spec (Wallet.points w) (RedeemRequest.points payload)); [|lia].
    by rewrite orb_true_r.
  - intros nonpos Hu Hnp. rewrite redeem_points_run, Hu, Hw. cbn [fst].
    by destruct (Z.leb_spec (RedeemRequest.points nonpos) 0); [|lia].
  - intros low Hu [Hpos Hle] (x & Hx & Hlt).
    rewrite redeem_points_run, Hu, Hw. cbn [fst].
    destruct (Z.leb_spec (RedeemRequest.points low) 0); [lia|].
    destruct (Z.ltb_spec (Wallet.points w) (RedeemRequest.points low)); [lia|].
    cbn [orb]. by rewrite Hx, Hlt.
Qed.

Lemma redeem_points_excess_witness :
  redeem_points redeem_20000 (Some sample_db)
  = (Raise (HTTPException 400 "Invalid points amount"), Some sample_db)
  /\ redeem_points redeem_minus_5 (Some sample_db)
     = (Raise (HTTPException 400 "Invalid points amount"), Some sample_db)
  /\ redeem_points redeem_5000 (Some sample_db)
     = (Raise (HTTPException 400 "Minimum withdrawal is $10"), Some sample_db).
Proof.
  destruct (redeem_points_excess sample_db redeem_20000
              {| Wallet.user_id := alice; Wallet.points := 12000;
                 Wallet.dollars := Float.round2 (Float.div (Float.of_Z 12000) Float.f1000);
                 Wallet.can_withdraw := true;
                 Wallet.min_withdrawal_dollars := Float.f10 |})
    as (Hover & Hnonpos & Hlow).
  - vm_compute. reflexivity.
  - vm_compute. reflexivity.
  - split; [exact Hover|]. split.
    + apply Hnonpos; [reflexivity | vm_compute; discriminate].
    + apply Hlow; [reflexivity | split; vm_compute; congruence |].
      exists (Float.div (Float.of_Z 5000) Float.f1000).
      split; vm_compute; reflexivity.
Defined.

(** ** create_user *)

Lemma create_user_run (d : Database) (payload : User.t) :
  create_user payload (Some d) =
  if (User.age payload <? 18) && negb (truthy_str (User.parent_email payload))
  then (Raise (HTTPException 400 "Parent email required for under-18 users"), Some d)
  else (Ok {[ "id" := VStr (ObjectId.to_str (next_oid d)) ]},
        Some (insert_one "user" (model_dump payload) d)).
Proof. unfold create_user. run. by destruct (_ && _). Qed.

(** C8. A request to create a user under 18 without a parent email is
    refused with status 400 and nothing is written; the same request
    with a parent email is accepted: the user is appended to the user
    collection and the response carries the id it was stored under. *)
Theorem create_user_parent_email (d : Database) (payload : User.t) :
  User.age payload < 18 ->
  User.parent_email payload = None ->
  create_user payload (Some d)
  = (Raise (HTTPException 400 "Parent email required for under-18 users"), Some d)
  /\ (forall email, email <> "" ->
      exists doc d',
        create_user (with_parent_email payload (Some email)) (Some d)
        = (Ok {[ "id" := VStr (ObjectId.to_str (next_oid d)) ]}, Some d')
        /\ collection d' "user" = (collection d "user" ++ [doc])%list
        /\ (forall name, name <> "user" -> collection d' name = collection d name)
        /\ doc !! "_id" = Some (VOid (next_oid d))
        /\ doc !! "parent_email" = Some (VStr email)
        /\ doc !! "age" = Some (VInt (User.age payload))).
Proof.
  intros Hage Hnone. split.
  - rewrite create_user_run, Hnone.
    by destruct (Z.ltb_spec (User.age payload) 18); [|lia].
  - intros email Hemail.
    exists (<["_id" := VOid (next_oid d)]>
              (model_dump (with_parent_email payload (Some email)))).
    eexists. split; [|split; [apply collection_insert_one|split]].
    + rewrite create_user_run. cbn [with_parent_email User.age User.parent_email truthy_str].
      rewrite bool_decide_eq_false_2 by done. cbn [negb].
      by rewrite andb_false_r.
    + intros name Hne. by apply collection_insert_one_ne.
    + unfold model_dump, User.dump, with_parent_email. cbn.
      repeat split; by simplify_map_eq.
Qed.

Lemma create_user_parent_email_witness :
  create_user teenager (Some sample_db)
  = (Raise (HTTPException 400 "Parent email required for under-18 users"), Some sample_db)
  /\ exists doc d',
       create_user (with_parent_email teenager (Some "parent@example.org")) (Some sample_db)
       = (Ok {[ "id" := VStr (ObjectId.to_str (next_oid sample_db)) ]}, Some d')
       /\ collection d' "user" = (collection sample_db "user" ++ [doc])%list
       /\ (forall name, name <> "user" -> collection d' name = collection sample_db name)
       /\ doc !! "_id" = Some (VOid (next_oid sample_db))
       /\ doc !! "parent_email" = Some (VStr "parent@example.org")
       /\ doc !! "age" = Some (VInt 15).
Proof.
  destruct (create_user_parent_email sample_db teenager) as [Hno Hyes].
  - vm_compute. reflexivity.
  - reflexivity.
  - split; [exact Hno|]. apply Hyes. discriminate.
Defined.

(** ** submit_challenge *)

Lemma matches_id (o : N) (doc : Doc) :
  matches {[ "_id" := VOid o ]} doc = bool_decide (doc !! "_id" = Some (VOid o)).
Proof.
  rewrite matches_singleton. unfold field_matches.
  destruct (doc !! "_id") as [w|].
  - apply bool_decide_ext. split; congruence.
  - done.
Qed.

Lemma head_filter_id (o : N) (docs : list Doc) :
  head (filter (fun doc => matches {[ "_id" := VOid o ]} doc = true) docs)
  = Ledger.by_id o docs.
Proof.
  unfold Ledger.by_id. induction docs as [|doc docs IH]; [done|].
  rewrite filter_cons. simpl. rewrite <- (matches_id o doc).
  destruct (matches _ doc) eqn:E.
  - by rewrite decide_True.
  - by rewrite decide_False by discriminate.
Qed.

Lemma by_id_some (o : N) (docs : list Doc) (doc : Doc) :
  Ledger.by_id o docs = Some doc -> doc ∈ docs /\ doc !! "_id" = Some (VOid o).
Proof.
  unfold Ledger.by_id. intros H. apply List.find_some in H as [Hin Hid].
  split; [by apply list_elem_of_In | by apply bool_decide_eq_true in Hid].
Qed.

Lemma by_id_truthy (o : N) (docs : list Doc) (doc : Doc) :
  Ledger.by_id o docs = Some doc -> truthy_doc (Some doc) = true.
Proof.
  intros H. apply by_id_some in H as [_ Hid]. simpl.
  rewrite bool_decide_eq_false_2; [done|].
  intros ->. by rewrite lookup_empty in Hid.
Qed.

Section Submit.

(** pydantic's conversion to [int] of a stored value that is not an
    integer: nothing is assumed about it. *)
Variable coerce : value -> option Z.

Lemma submit_challenge_run (d : Database) (payload : SubmitRequest.t) :
  submit_challenge coerce payload (Some d) =
  match ObjectId.of_str (SubmitRequest.user_id payload),
        ObjectId.of_str (SubmitRequest.challenge_id payload) with
  | Ok uid, Ok cid =>
      match Ledger.by_id uid (collection d "user"),
            Ledger.by_id cid (collection d "challenge") with
      | Some _, Some c =>
          match Submission.int_field coerce (get c "points" (VInt 0)) with
          | Ok p =>
              if 0 <=? p then
                (Ok {[ "id" := VStr (ObjectId.to_str (next_oid d));
                       "points_awarded" := get c "points" (VInt 0) ]},
                 Some (insert_one "submission" (model_dump (new_submission payload p)) d))
              else (Raise ValidationError, Some d)
          | Raise e => (Raise e, Some d)
          end
      | _, _ => (Raise (HTTPException 404 "User or challenge not found"), Some d)
      end
  | _, _ => (Raise (HTTPException 400 "Invalid ids provided"), Some d)
  end.
Proof.
  unfold submit_challenge. run.
  destruct (ObjectId.of_str (SubmitRequest.user_id payload)) as [uid|]; [|done].
  destruct (ObjectId.of_str (SubmitRequest.challenge_id payload)) as [cid|]; [|done].
  rewrite !head_filter_id.
  destruct (Ledger.by_id uid _) as [u|] eqn:Hu;
    destruct (Ledger.by_id cid _) as [c|] eqn:Hc; try done.
  rewrite (by_id_truthy _ _ _ Hu), (by_id_truthy _ _ _ Hc). cbn [negb orb].
  unfold Submission.new.
  destruct (Submission.int_field coerce _) as [p|]; [|done]. cbn [res_bind].
  rewrite bool_decide_eq_true_2 by set_solver. rewrite andb_true_r.
  by destruct (0 <=? p).
Qed.

(** C6. When both ids of the request reference stored records and the
    challenge holds a point value [p], the submission is stored with
    [points_awarded = p] and status approved, nothing else is
    written, and the response carries the submission's id and [p]. *)
Theorem submit_challenge_awards (d : Database) (payload : SubmitRequest.t)
    (uid cid : N) (u c : Doc) (p : Z) :
  ObjectId.of_str (SubmitRequest.user_id payload) = Ok uid ->
  ObjectId.of_str (SubmitRequest.challenge_id payload) = Ok cid ->
  Ledger.by_id uid (collection d "user") = Some u ->
  Ledger.by_id cid (collection d "challenge") = Some c ->
  c !! "points" = Some (VInt p) ->
  0 <= p ->
  exists sub d',
    submit_challenge coerce payload (Some d)
    = (Ok {[ "id" := VStr (ObjectId.to_str (next_oid d));
             "points_awarded" := VInt p ]}, Some d')
    /\ collection d' "submission" = (collection d "submission" ++ [sub])%list
    /\ (forall name, name <> "submission" -> collection d' name = collection d name)
    /\ sub !! "_id" = Some (VOid (next_oid d))
    /\ sub !! "user_id" = Some (VStr (SubmitRequest.user_id payload))
    /\ sub !! "challenge_id" = Some (VStr (SubmitRequest.challenge_id payload))
    /\ sub !! "points_awarded" = Some (VInt p)
    /\ sub !! "status" = Some (VStr "approved").
Proof.
  intros Huid Hcid Hu Hc Hp Hpos.
  exists (<["_id" := VOid (next_oid d)]> (model_dump (new_submission payload p))).
  eexists. split; [|split; [apply collection_insert_one|split]].
  - rewrite submit_challenge_run, Huid, Hcid, Hu, Hc.
    unfold get. rewrite Hp. unfold default, id. cbn [from_option Submission.int_field].
    by destruct (Z.leb_spec 0 p); [|lia].
  - intros name Hne. by apply collection_insert_one_ne.
  - unfold model_dump, Submission.dump, new_submission. cbn.
    repeat split; by simplify_map_eq.
Qed.

(** C7. With two well-formed ids of which one references no stored
    record the request is refused as not found (404); with a
    malformed id it is refused as invalid (400), another error; in
    both cases nothing is written. *)
Theorem submit_challenge_rejects (d : Database) (payload : SubmitRequest.t) :
  (forall uid cid,
     ObjectId.of_str (SubmitRequest.user_id payload) = Ok uid ->
     ObjectId.of_str (SubmitRequest.challenge_id payload) = Ok cid ->
     Ledger.by_id uid (collection d "user") = None
     \/ Ledger.by_id cid (collection d "challenge") = None ->
     submit_challenge coerce payload (Some d)
     = (Raise (HTTPException 404 "User or challenge not found"), Some d))
  /\ (ObjectId.is_valid (SubmitRequest.user_id payload) = false
      \/ ObjectId.is_valid (SubmitRequest.challenge_id payload) = false ->
      submit_challenge coerce payload (Some d)
      = (Raise (HTTPException 400 "Invalid ids provided"), Some d))
  /\ HTTPException 404 "User or challenge not found"
     <> HTTPException 400 "Invalid ids provided".
Proof.
  split; [|split; [|discriminate]].
  - intros uid cid Huid Hcid Hmiss.
    rewrite submit_challenge_run, Huid, Hcid.
    destruct Hmiss as [-> | ->]; [done|].
    by destruct (Ledger.by_id uid _).
  - unfold ObjectId.is_valid. intros Hbad. rewrite submit_challenge_run.
    destruct (ObjectId.of_str (SubmitRequest.user_id payload));
      destruct (ObjectId.of_str (SubmitRequest.challenge_id payload));
      try done.
    by destruct Hbad.
Qed.

End Submit.

Lemma submit_challenge_awards_witness :
  exists sub d',
    submit_challenge no_coercion submit_tree (Some sample_db)
    = (Ok {[ "id" := VStr (ObjectId.to_str (next_oid sample_db));
             "points_awarded" := VInt 1000 ]}, Some d')
    /\ collection d' "submission" = (collection sample_db "submission" ++ [sub])%list
    /\ (forall name, name <> "submission" -> collection d' name = collection sample_db name)
    /\ sub !! "_id" = Some (VOid (next_oid sample_db))
    /\ sub !! "user_id" = Some (VStr alice)
    /\ sub !! "challenge_id" = Some (VStr tree)
    /\ sub !! "points_awarded" = Some (VInt 1000)
    /\ sub !! "status" = Some (VStr "approved").
Proof.
  eapply (submit_challenge_awards no_coercion sample_db submit_tree);
    [vm_compute; reflexivity .. | vm_compute; discriminate].
Defined.

Lemma submit_challenge_rejects_witness :
  submit_challenge no_coercion submit_unknown_challenge (Some sample_db)
  = (Raise (HTTPException 404 "User or challenge not found"), Some sample_db)
  /\ submit_challenge no_coercion submit_malformed (Some sample_db)
     = (Raise (HTTPException 400 "Invalid ids provided"), Some sample_db)
  /\ submit_challenge no_coercion submit_padded (Some sample_db)
     = (Raise (HTTPException 404 "User or challenge not found"), Some sample_db).
Proof.
  split; [|split].
  - eapply (submit_challenge_rejects no_coercion sample_db submit_unknown_challenge);
      [vm_compute; reflexivity .. | right; vm_compute; reflexivity].
  - apply (submit_challenge_rejects no_coercion sample_db submit_malformed).
    right. vm_compute. reflexivity.
  - eapply (submit_challenge_rejects no_coercion sample_db submit_padded);
      [vm_compute; reflexivity .. | left; vm_compute; reflexivity].
Defined.

(** ** seed_challenges *)

Lemma filter_matches_empty (docs : list Doc) :
  filter (fun doc => matches ∅ doc = true) docs = docs.
Proof.
  induction docs as [|doc docs IH]; [done|].
  rewrite filter_cons, decide_True by apply matches_empty. by rewrite IH.
Qed.

Lemma defaults_valid : Forall (fun item => Challenge.new item = Ok item) defaults.
Proof. unfold defaults. repeat constructor. Qed.

Lemma seed_body_run (item : Challenge.t) (d : Database) :
  Challenge.new item = Ok item ->
  seed_body item (Some d) = (Ok tt, Some (insert_one "challenge" (model_dump item) d)).
Proof. intros Hitem. unfold seed_body. run. by rewrite Hitem. Qed.

Lemma for_each_seed (items : list Challenge.t) (d : Database) :
  Forall (fun item => Challenge.new item = Ok item) items ->
  for_each items seed_body (Some d) = (Ok tt, Some (insert_challenges items d)).
Proof.
  intros Hvalid. revert d. induction Hvalid as [|item items Hitem _ IH]; intros d; [done|].
  cbn [for_each]. unfold mbind, M_bind. rewrite seed_body_run by done.
  apply IH.
Qed.

Lemma insert_challenges_collection (items : list Challenge.t) (d : Database) :
  collection (insert_challenges items d) "challenge"
  = (collection d "challenge" ++ stored (next_oid d) items)%list
  /\ (forall name, name <> "challenge" ->
        collection (insert_challenges items d) name = collection d name).
Proof.
  revert d. induction items as [|c items IH]; intros d.
  - split; [by rewrite app_nil_r | done].
  - cbn [insert_challenges fold_left stored].
    destruct (IH (insert_one "challenge" (model_dump c) d)) as [Hc Hne].
    fold (insert_challenges items (insert_one "challenge" (model_dump c) d)).
    split.
    + rewrite Hc, collection_insert_one, next_oid_insert_one.
      by rewrite <- app_assoc.
    + intros name Hname. rewrite Hne by done. by apply collection_insert_one_ne.
Qed.

Lemma stored_length (o : N) (items : list Challenge.t) :
  length (stored o items) = length items.
Proof. revert o. induction items as [|c items IH]; intros o; simpl; [done | by rewrite IH]. Qed.

Lemma seed_challenges_run (d : Database) :
  seed_challenges (Some d) =
  if 0 <? Z.of_nat (length (collection d "challenge")) then
    (Ok {[ "status" := VStr "ok"; "seeded" := VBool false;
           "count" := VInt (Z.of_nat (length (collection d "challenge"))) ]}, Some d)
  else
    (Ok {[ "status" := VStr "ok"; "seeded" := VBool true; "count" := VInt 6 ]},
     Some (insert_challenges defaults d)).
Proof.
  unfold seed_challenges.
  fold seed_body.
  unfold mbind at 1 2, M_bind, db_is_None, count_documents, with_collection.
  rewrite filter_matches_empty.
  destruct (0 <? _); [done|].
  unfold mbind, M_bind. by rewrite (for_each_seed _ _ defaults_valid).
Qed.

(** C9. Seeding an empty challenge collection stores the six default
    challenges and nothing else; seeding a collection that holds a
    challenge writes nothing; so a second seeding leaves the store as
    the first one left it. *)
Theorem seed_challenges_idempotent (d : Database) :
  (collection d "challenge" = [] ->
   exists d',
     seed_challenges (Some d)
     = (Ok {[ "status" := VStr "ok"; "seeded" := VBool true; "count" := VInt 6 ]}, Some d')
     /\ collection d' "challenge" = stored (next_oid d) defaults
     /\ length (collection d' "challenge") = 6%nat
     /\ (forall name, name <> "challenge" -> collection d' name = collection d name))
  /\ (collection d "challenge" <> [] ->
      seed_challenges (Some d)
      = (Ok {[ "status" := VStr "ok"; "seeded" := VBool false;
               "count" := VInt (Z.of_nat (length (collection d "challenge"))) ]}, Some d))
  /\ snd (seed_challenges (snd (seed_challenges (Some d))))
     = snd (seed_challenges (Some d)).
Proof.
  destruct (insert_challenges_collection defaults d) as [Hc Hne].
  assert (Hnonempty : forall d0, collection d0 "challenge" <> [] ->
            (0 <? Z.of_nat (length (collection d0 "challenge"))) = true).
  { intros d0 H0. apply Z.ltb_lt.
    destruct (collection d0 "challenge"); [done | simpl length; lia]. }
  split; [|split].
  - intros Hempty. exists (insert_challenges defaults d).
    rewrite seed_challenges_run, Hempty. cbn [length Z.of_nat Z.ltb Z.compare].
    rewrite Hc, Hempty. cbn [app].
    split; [done|]. split; [done|]. split; [by rewrite stored_length | done].
  - intros Hsome. by rewrite seed_challenges_run, Hnonempty.
  - rewrite (seed_challenges_run d).
    destruct (0 <? Z.of_nat (length (collection d "challenge"))) eqn:E; cbn [snd].
    + by rewrite seed_challenges_run, E.
    + rewrite seed_challenges_run, Hnonempty; [done|].
      rewrite Hc. intros Hnil. apply (f_equal length) in Hnil.
      rewrite length_app, stored_length in Hnil. simpl in Hnil. lia.
Qed.

Lemma seed_challenges_idempotent_witness :
  seed_challenges (Some sample_db)
  = (Ok {[ "status" := VStr "ok"; "seeded" := VBool false; "count" := VInt 3 ]},
     Some sample_db)
  /\ exists d',
       seed_challenges (Some {| collections := ∅; next_oid := 0 |})
       = (Ok {[ "status" := VStr "ok"; "seeded" := VBool true; "count" := VInt 6 ]}, Some d')
       /\ collection d' "challenge" = stored 0 defaults
       /\ length (collection d' "challenge") = 6%nat
       /\ (forall name, name <> "challenge" ->
             collection d' name = collection {| collections := ∅; next_oid := 0 |} name).
Proof.
  split.
  - apply (seed_challenges_idempotent sample_db).
    intros Hnil. apply (f_equal length) in Hnil. vm_compute in Hnil. discriminate Hnil.
  - apply (seed_challenges_idempotent {| collections := ∅; next_oid := 0 |}).
    reflexivity.
Defined.

(** ** list_challenges *)

Lemma field_matches_true (o : option value) :
  field_matches o (VBool true) = bool_decide (o = Some (VBool true)).
Proof.
  destruct o as [w|]; simpl; [|done].
  apply bool_decide_ext. split; congruence.
Qed.

Lemma matches_active (doc : Doc) :
  matches {[ "is_active" := VBool true ]} doc = is_active doc.
Proof. by rewrite matches_singleton, field_matches_true. Qed.

Lemma matches_active_audience (a : string) (doc : Doc) :
  matches (<["audience" := VStr a]> {[ "is_active" := VBool true ]}) doc
  = is_active doc && for_audience a doc.
Proof.
  rewrite matches_insert by done.
  rewrite matches_active, field_matches_str. apply andb_comm.
Qed.

Lemma list_challenges_run (d : Database) (audience : option string) :
  list_challenges audience (Some d)
  = (Ok (listed (matches (challenge_query audience)) d), Some d).
Proof.
  unfold list_challenges. run. unfold listed, challenge_query.
  destruct audience as [a|]; [|done]. by destruct (bool_decide _).
Qed.

Lemma listed_ext (sel1 sel2 : Doc -> bool) (d : Database) :
  (forall doc, sel1 doc = sel2 doc) -> listed sel1 d = listed sel2 d.
Proof.
  intros Hext. unfold listed. do 2 f_equal.
  apply list_filter_iff. intros doc. by rewrite Hext.
Qed.

Lemma listed_length (sel : Doc -> bool) (d : Database) :
  (length (listed sel d) <= 100)%nat.
Proof. unfold listed. rewrite length_fmap, length_take. lia. Qed.

Lemma listed_elem (sel : Doc -> bool) (d : Database) (r : option Doc) :
  r ∈ listed sel d ->
  exists doc, r = to_str_id (Some doc) /\ doc ∈ collection d "challenge" /\ sel doc = true.
Proof.
  unfold listed. intros Hr.
  apply list_elem_of_fmap in Hr as (doc & -> & Hdoc).
  apply subseteq_take in Hdoc. apply list_elem_of_filter in Hdoc as [Hsel Hin].
  by exists doc.
Qed.

(** [to_str_id] touches the keys [_id] and [id] only. *)
Lemma to_str_id_lookup (doc : Doc) (k : string) :
  k <> "_id" -> k <> "id" ->
  exists doc', to_str_id (Some doc) = Some doc' /\ doc' !! k = doc !! k.
Proof.
  intros H1 H2. unfold to_str_id.
  destruct (doc !! "_id") as [v|]; [|by exists doc].
  destruct (bool_decide (v = VNone)); [by exists doc|].
  eexists. split; [reflexivity|].
  by rewrite lookup_insert_ne, lookup_delete_ne.
Qed.

(** C10. With audience [kid] or [adult] the listing holds the active
    challenges whose audience tag is exactly that value, so none tagged
    [all]; with any other audience, or none, it holds all the active
    challenges; in both cases at most the first 100, each passed
    through [to_str_id]. *)
Theorem list_challenges_audience (d : Database) (audience : option string) :
  (forall a,
     audience = Some a -> a = "kid" \/ a = "adult" ->
     list_challenges audience (Some d)
     = (Ok (listed (fun doc => is_active doc && for_audience a doc) d), Some d)
     /\ (forall r, r ∈ listed (fun doc => is_active doc && for_audience a doc) d ->
         exists doc doc',
           doc ∈ collection d "challenge"
           /\ r = Some doc'
           /\ to_str_id (Some doc) = Some doc'
           /\ doc !! "is_active" = Some (VBool true)
           /\ doc !! "audience" = Some (VStr a)
           /\ doc !! "audience" <> Some (VStr "all")
           /\ doc' !! "audience" = Some (VStr a)))
  /\ ((forall a, audience = Some a -> a <> "kid" /\ a <> "adult") ->
      list_challenges audience (Some d) = (Ok (listed is_active d), Some d))
  /\ (forall docs h,
        list_challenges audience (Some d) = (Ok docs, h) -> (length docs <= 100)%nat).
Proof.
  split; [|split].
  - intros a -> Ha. split.
    + rewrite list_challenges_run. do 2 f_equal. apply listed_ext. intros doc.
      unfold challenge_query.
      rewrite bool_decide_eq_true_2 by (destruct Ha as [-> | ->]; repeat constructor).
      apply matches_active_audience.
    + intros r Hr. apply listed_elem in Hr as (doc & -> & Hin & Hsel).
      apply andb_true_iff in Hsel as [Hact Haud].
      apply bool_decide_eq_true in Hact. apply bool_decide_eq_true in Haud.
      destruct (to_str_id_lookup doc "audience") as (doc' & Hdoc' & Hlook); [done..|].
      exists doc, doc'. rewrite Hlook, Haud.
      repeat split; try done.
      destruct Ha as [-> | ->]; discriminate.
  - intros Hother. rewrite list_challenges_run. do 2 f_equal. apply listed_ext.
    intros doc. unfold challenge_query.
    destruct audience as [a|]; [|apply matches_active].
    destruct (Hother a eq_refl) as [Hk Ha].
    rewrite bool_decide_eq_false_2; [apply matches_active|].
    intros Hin. apply list_elem_of_In in Hin. simpl in Hin. intuition congruence.
  - intros docs h. rewrite list_challenges_run. intros [= <- _]. apply listed_length.
Qed.

Lemma list_challenges_audience_witness :
  (list_challenges (Some "adult") (Some sample_db)
   = (Ok (listed (fun doc => is_active doc && for_audience "adult" doc) sample_db),
      Some sample_db)
   /\ length (listed (fun doc => is_active doc && for_audience "adult" doc) sample_db) = 1%nat)
  /\ (list_challenges (Some "all") (Some sample_db)
      = (Ok (listed is_active sample_db), Some sample_db)
      /\ length (listed is_active sample_db) = 2%nat).
Proof.
  destruct (list_challenges_audience sample_db (Some "adult")) as (Hsel & _ & _).
  destruct (list_challenges_audience sample_db (Some "all")) as (_ & Hall & _).
  split; (split; [|vm_compute; reflexivity]).
  - apply (Hsel "adult"); [reflexivity | by right].
  - apply Hall. intros a [= <-]. split; discriminate.
Defined.

(** ** Further properties of the handlers *)

(** X1. Without a configured database every handler raises the same
    500 error and the handle stays unset. *)
Theorem handlers_need_database (coerce : value -> option Z) :
  seed_challenges None = (Raise e500, None)
  /\ (forall audience, list_challenges audience None = (Raise e500, None))
  /\ (forall payload, create_user payload None = (Raise e500, None))
  /\ (forall payload, submit_challenge coerce payload None = (Raise e500, None))
  /\ (forall user_id, get_wallet user_id None = (Raise e500, None))
  /\ (forall payload, redeem_points payload None = (Raise e500, None)).
Proof. repeat split. Qed.

(** X2. A user id that is not a well-formed object id is refused by
    [get_wallet] with status 400 "Invalid user id"; [redeem_points]
    computes the wallet first, so it refuses such a request with that
    same error whatever the amount, and neither writes. *)
Theorem invalid_user_id_refused (d : Database) (user_id : string) :
  ObjectId.is_valid user_id = false ->
  get_wallet user_id (Some d) = (Raise (HTTPException 400 "Invalid user id"), Some d)
  /\ (forall payload,
        RedeemRequest.user_id payload = user_id ->
        redeem_points payload (Some d)
        = (Raise (HTTPException 400 "Invalid user id"), Some d)).
Proof.
  unfold ObjectId.is_valid. intros Hbad.
  assert (Hw : get_wallet user_id (Some d)
               = (Raise (HTTPException 400 "Invalid user id"), Some d)).
  { rewrite get_wallet_run. by destruct (ObjectId.of_str user_id). }
  split; [done|].
  intros payload <-. by rewrite redeem_points_run, Hw.
Qed.

Lemma invalid_user_id_refused_witness :
  get_wallet "42" (Some sample_db)
  = (Raise (HTTPException 400 "Invalid user id"), Some sample_db)
  /\ redeem_points {| RedeemRequest.user_id := "42"; RedeemRequest.points := -1;
                      RedeemRequest.for_under18 := None |} (Some sample_db)
     = (Raise (HTTPException 400 "Invalid user id"), Some sample_db).
Proof.
  destruct (invalid_user_id_refused sample_db "42") as [Hw Hr]; [reflexivity|].
  split; [exact Hw | by apply Hr].
Defined.

Lemma get_wallet_same_ledger (d1 d2 : Database) (user_id : string) :
  collection d1 "submission" = collection d2 "submission" ->
  collection d1 "wallettransaction" = collection d2 "wallettransaction" ->
  fst (get_wallet user_id (Some d1)) = fst (get_wallet user_id (Some d2)).
Proof. intros Hs Ht. rewrite !get_wallet_run. cbn [fst]. by rewrite Hs, Ht. Qed.

(** X3. [get_wallet] never writes, and its answer depends on the
    submission and wallettransaction collections only: it does not look
    the user up, so two stores with the same ledger give the same
    wallet. *)
Theorem get_wallet_ledger_only (d1 d2 : Database) (user_id : string) :
  collection d1 "submission" = collection d2 "submission" ->
  collection d1 "wallettransaction" = collection d2 "wallettransaction" ->
  fst (get_wallet user_id (Some d1)) = fst (get_wallet user_id (Some d2))
  /\ snd (get_wallet user_id (Some d1)) = Some d1.
Proof.
  intros Hs Ht. split; [by apply get_wallet_same_ledger | apply get_wallet_reads].
Qed.

Lemma get_wallet_ledger_only_witness :
  fst (get_wallet alice (Some (insert_one "user" ∅ sample_db)))
  = fst (get_wallet alice (Some sample_db))
  /\ snd (get_wallet alice (Some (insert_one "user" ∅ sample_db)))
     = Some (insert_one "user" ∅ sample_db).
Proof.
  apply (get_wallet_ledger_only (insert_one "user" ∅ sample_db) sample_db alice);
    by apply collection_insert_one_ne.
Defined.

(** *** What a request leaves in the store *)

Lemma total_app (sel : Doc -> bool) (key : string) (docs1 docs2 : list Doc) :
  Ledger.total sel key (docs1 ++ docs2)
  = Ledger.total sel key docs1 + Ledger.total sel key docs2.
Proof. induction docs1 as [|doc docs1 IH]; simpl; [done | rewrite IH; lia]. Qed.

Lemma submission_doc_fields (d : Database) (payload : SubmitRequest.t) (p : Z) :
  submission_doc d payload p !! "user_id" = Some (VStr (SubmitRequest.user_id payload))
  /\ submission_doc d payload p !! "status" = Some (VStr "approved")
  /\ submission_doc d payload p !! "points_awarded" = Some (VInt p).
Proof.
  unfold submission_doc, model_dump, Submission.dump, new_submission. cbn.
  repeat split; by simplify_map_eq.
Qed.

Lemma has_str_eq (key s s' : string) (doc : Doc) :
  doc !! key = Some (VStr s) -> Ledger.has_str key s' doc = bool_decide (s = s').
Proof.
  intros H. unfold Ledger.has_str. rewrite H.
  apply bool_decide_ext. split; congruence.
Qed.

Lemma submission_doc_approved (d : Database) (payload : SubmitRequest.t) (p : Z)
    (user_id : string) :
  Ledger.approved_submission user_id (submission_doc d payload p)
  = bool_decide (SubmitRequest.user_id payload = user_id).
Proof.
  destruct (submission_doc_fields d payload p) as (Hu & Hs & _).
  unfold Ledger.approved_submission.
  rewrite (has_str_eq _ _ _ _ Hu), (has_str_eq _ _ _ _ Hs).
  by rewrite andb_true_r.
Qed.

Lemma redeem_doc_redemption (d : Database) (payload : RedeemRequest.t) (user_id : string) :
  Ledger.redemption user_id (redeem_doc d payload)
  = bool_decide (RedeemRequest.user_id payload = user_id).
Proof.
  destruct (redeem_doc_fields d payload) as (_ & Hu & Ht & _).
  unfold Ledger.redemption.
  rewrite (has_str_eq _ _ _ _ Hu), (has_str_eq _ _ _ _ Ht).
  by rewrite andb_true_r.
Qed.

(** A submission served: nothing written, or one approved submission
    of [p >= 0] points appended. *)
Lemma submit_challenge_state (coerce : value -> option Z) (d : Database)
    (payload : SubmitRequest.t) :
  (is_ok (fst (submit_challenge coerce payload (Some d))) = false
   /\ snd (submit_challenge coerce payload (Some d)) = Some d)
  \/ (exists p,
        0 <= p
        /\ is_ok (fst (submit_challenge coerce payload (Some d))) = true
        /\ snd (submit_challenge coerce payload (Some d))
           = Some (insert_one "submission" (model_dump (new_submission payload p)) d)).
Proof.
  rewrite submit_challenge_run.
  destruct (ObjectId.of_str (SubmitRequest.user_id payload)); [|by left].
  destruct (ObjectId.of_str (SubmitRequest.challenge_id payload)); [|by left].
  destruct (Ledger.by_id _ (collection d "user")); [|by left].
  destruct (Ledger.by_id _ (collection d "challenge")); [|by left].
  destruct (Submission.int_field coerce _) as [p|]; [|by left].
  destruct (Z.leb_spec 0 p); [|by left].
  right. by exists p.
Qed.

(** A redemption served: nothing written, or one redeem transaction of
    the requested points appended, the points being positive and within
    the wallet computed before. *)
Lemma redeem_points_state (d : Database) (payload : RedeemRequest.t) :
  (is_ok (fst (redeem_points payload (Some d))) = false
   /\ snd (redeem_points payload (Some d)) = Some d)
  \/ (exists w,
        get_wallet (RedeemRequest.user_id payload) (Some d) = (Ok w, Some d)
        /\ 0 < RedeemRequest.points payload <= Wallet.points w
        /\ Float.ltb (Float.div (Float.of_Z (RedeemRequest.points payload)) Float.f1000)
             Float.f10 = false
        /\ is_ok (fst (redeem_points payload (Some d))) = true
        /\ snd (redeem_points payload (Some d))
           = Some (insert_one "wallettransaction" (model_dump (redeem_txn payload)) d)).
Proof.
  rewrite redeem_points_run.
  pose proof (get_wallet_reads (RedeemRequest.user_id payload) (Some d)) as Hread.
  destruct (get_wallet _ (Some d)) as [[w|e] h']; simpl in Hread; subst h'; [|by left].
  cbn [fst].
  destruct (Z.leb_spec (RedeemRequest.points payload) 0); [by left|].
  destruct (Z.ltb_spec (Wallet.points w) (RedeemRequest.points payload)); [by left|].
  cbn [orb].
  destruct (Float.int_div_1000 _) as [x|] eqn:Hx; [|by left].
  apply int_div_1000_ok in Hx as [_ ->].
  destruct (Float.ltb _ Float.f10) eqn:Hlt; [by left|].
  right. exists w. repeat split; (done || lia).
Qed.

Lemma create_user_state (d : Database) (payload : User.t) :
  snd (create_user payload (Some d)) = Some d
  \/ snd (create_user payload (Some d)) = Some (insert_one "user" (model_dump payload) d).
Proof. rewrite create_user_run. destruct (_ && _); [by left | by right]. Qed.

Lemma seed_challenges_state (d : Database) :
  snd (seed_challenges (Some d)) = Some d
  \/ snd (seed_challenges (Some d)) = Some (insert_challenges defaults d).
Proof. rewrite seed_challenges_run. destruct (0 <? _); [by left | by right]. Qed.

Lemma list_challenges_state (audience : option string) (h : option Database) :
  snd (list_challenges audience h) = h.
Proof. destruct h as [d|]; [by rewrite list_challenges_run | done]. Qed.

(** The ledger of a store that received one more document. *)
Lemma earned_insert_one (name : string) (doc : Doc) (d : Database) (user_id : string) :
  Ledger.earned (insert_one name doc d) user_id
  = Ledger.earned d user_id
    + (if bool_decide (name = "submission")
       then Ledger.total (Ledger.approved_submission user_id) "points_awarded"
              [<["_id" := VOid (next_oid d)]> doc]
       else 0).
Proof.
  unfold Ledger.earned. case_bool_decide as Hname.
  - subst name. by rewrite collection_insert_one, total_app.
  - rewrite collection_insert_one_ne by done. lia.
Qed.

Lemma redeemed_insert_one (name : string) (doc : Doc) (d : Database) (user_id : string) :
  Ledger.redeemed (insert_one name doc d) user_id
  = Ledger.redeemed d user_id
    + (if bool_decide (name = "wallettransaction")
       then Ledger.total (Ledger.redemption user_id) "points"
              [<["_id" := VOid (next_oid d)]> doc]
       else 0).
Proof.
  unfold Ledger.redeemed. case_bool_decide as Hname.
  - subst name. by rewrite collection_insert_one, total_app.
  - rewrite collection_insert_one_ne by done. lia.
Qed.

Lemma typed_insert_one (name : string) (doc : Doc) (d : Database) :
  Ledger.typed d = true ->
  Ledger.int_or_absent "points_awarded" (<["_id" := VOid (next_oid d)]> doc) = true ->
  Ledger.int_or_absent "points" (<["_id" := VOid (next_oid d)]> doc) = true ->
  Ledger.typed (insert_one name doc d) = true.
Proof.
  unfold Ledger.typed. intros Hty Hs Ht.
  apply andb_true_iff in Hty as [Hsub Htxn]. apply andb_true_iff. split.
  - destruct (decide (name = "submission")) as [->|Hne].
    + rewrite collection_insert_one, forallb_app, Hsub. simpl. by rewrite Hs.
    + by rewrite collection_insert_one_ne.
  - destruct (decide (name = "wallettransaction")) as [->|Hne].
    + rewrite collection_insert_one, forallb_app, Htxn. simpl. by rewrite Ht.
    + by rewrite collection_insert_one_ne.
Qed.

Lemma ledger_insert_challenges (items : list Challenge.t) (d : Database) (user_id : string) :
  Ledger.earned (insert_challenges items d) user_id = Ledger.earned d user_id
  /\ Ledger.redeemed (insert_challenges items d) user_id = Ledger.redeemed d user_id
  /\ Ledger.typed (insert_challenges items d) = Ledger.typed d.
Proof.
  destruct (insert_challenges_collection items d) as [_ Hne].
  unfold Ledger.earned, Ledger.redeemed, Ledger.typed.
  by rewrite !Hne.
Qed.

Lemma typed_insert_one_other (name : string) (doc : Doc) (d : Database) :
  name <> "submission" -> name <> "wallettransaction" ->
  Ledger.typed (insert_one name doc d) = Ledger.typed d.
Proof.
  intros H1 H2. unfold Ledger.typed. by rewrite !collection_insert_one_ne.
Qed.

Lemma earned_submitted (d : Database) (payload : SubmitRequest.t) (p : Z) (user_id : string) :
  Ledger.earned (insert_one "submission" (model_dump (new_submission payload p)) d) user_id
  = Ledger.earned d user_id
    + (if bool_decide (SubmitRequest.user_id payload = user_id) then p else 0).
Proof.
  rewrite earned_insert_one, bool_decide_eq_true_2 by done.
  fold (submission_doc d payload p). cbn [Ledger.total].
  rewrite submission_doc_approved.
  destruct (submission_doc_fields d payload p) as (_ & _ & Hp).
  unfold Ledger.int_field. rewrite Hp. case_bool_decide; lia.
Qed.

Lemma redeemed_redeemed (d : Database) (payload : RedeemRequest.t) (user_id : string) :
  Ledger.redeemed
    (insert_one "wallettransaction" (model_dump (redeem_txn payload)) d) user_id
  = Ledger.redeemed d user_id
    + (if bool_decide (RedeemRequest.user_id payload = user_id)
       then RedeemRequest.points payload else 0).
Proof.
  rewrite redeemed_insert_one, bool_decide_eq_true_2 by done.
  fold (redeem_doc d payload). cbn [Ledger.total].
  rewrite redeem_doc_redemption.
  destruct (redeem_doc_fields d payload) as (_ & _ & _ & Hp & _).
  unfold Ledger.int_field. rewrite Hp. case_bool_decide; lia.
Qed.

Lemma typed_submitted (d : Database) (payload : SubmitRequest.t) (p : Z) :
  Ledger.typed d = true ->
  Ledger.typed (insert_one "submission" (model_dump (new_submission payload p)) d) = true.
Proof.
  intros Hty. apply typed_insert_one; [done| |];
    unfold Ledger.int_or_absent, model_dump, Submission.dump, new_submission; cbn;
    by simplify_map_eq.
Qed.

Lemma typed_redeemed (d : Database) (payload : RedeemRequest.t) :
  Ledger.typed d = true ->
  Ledger.typed (insert_one "wallettransaction" (model_dump (redeem_txn payload)) d) = true.
Proof.
  intros Hty. apply typed_insert_one; [done| |];
    unfold Ledger.int_or_absent, model_dump, WalletTransaction.dump, redeem_txn; cbn;
    by simplify_map_eq.
Qed.

Lemma wallet_of_points (user_id : string) (b : Z) (w : Wallet.t) :
  wallet_of user_id b = Ok w -> Wallet.points w = b /\ Z.abs b < Float.overflow_bound.
Proof.
  unfold wallet_of. destruct (Float.int_div_1000 b) as [x|] eqn:Hx; [|done].
  intros [= <-]. by apply int_div_1000_ok in Hx as [? _].
Qed.

(** One request keeps the ledger well typed and solvent. *)
Lemma serve_invariant (coerce : value -> option Z) (r : request) (d : Database) :
  Ledger.typed d = true -> solvent d ->
  exists d', serve coerce r (Some d) = Some d' /\ Ledger.typed d' = true /\ solvent d'.
Proof.
  intros Hty Hsol. destruct r as [|audience|payload|payload|user_id|payload]; cbn [serve].
  - destruct (seed_challenges_state d) as [-> | ->]; [by exists d|].
    eexists. split; [done|].
    split.
    + by rewrite (proj2 (proj2 (ledger_insert_challenges defaults d ""))).
    + intros uid. destruct (ledger_insert_challenges defaults d uid) as (-> & -> & _).
      apply Hsol.
  - rewrite list_challenges_state. by exists d.
  - destruct (create_user_state d payload) as [-> | ->]; [by exists d|].
    eexists. split; [done|]. split.
    + by rewrite typed_insert_one_other.
    + intros uid. rewrite earned_insert_one, redeemed_insert_one.
      rewrite !bool_decide_eq_false_2 by done. specialize (Hsol uid). lia.
  - destruct (submit_challenge_state coerce d payload) as [[_ ->] | (p & Hp & _ & ->)];
      [by exists d|].
    eexists. split; [done|]. split; [by apply typed_submitted|].
    intros uid. rewrite earned_submitted, redeemed_insert_one.
    rewrite (bool_decide_eq_false_2 ("submission" = "wallettransaction")) by done.
    specialize (Hsol uid). case_bool_decide; lia.
  - rewrite get_wallet_reads. by exists d.
  - destruct (redeem_points_state d payload) as [[_ ->] | (w & Hw & Hk & _ & _ & ->)];
      [by exists d|].
    eexists. split; [done|]. split; [by apply typed_redeemed|].
    intros uid. rewrite redeemed_redeemed, earned_insert_one.
    rewrite (bool_decide_eq_false_2 ("wallettransaction" = "submission")) by done.
    specialize (Hsol uid). case_bool_decide as Huid; [|lia].
    subst uid. rewrite get_wallet_typed in Hw.
    + injection Hw as Hw. apply wallet_of_points in Hw as [Hw _].
      unfold Ledger.balance in Hw. lia.
    + pose proof (get_wallet_run d (RedeemRequest.user_id payload)) as Hrun.
      rewrite Hw in Hrun. unfold ObjectId.is_valid.
      by destruct (ObjectId.of_str (RedeemRequest.user_id payload)).
    + done.
Qed.

(** X4. Whatever requests are served, in whatever order, a ledger
    whose point fields are integers and in which no user has redeemed
    more than was earned stays so: the handlers never overdraw an
    account, and on such a store the clamp of [get_wallet] is idle, the
    balance being earned minus redeemed. *)
Theorem ledger_stays_solvent (coerce : value -> option Z) (rs : list request) (d : Database) :
  Ledger.typed d = true ->
  solvent d ->
  exists d',
    fold_left (fun h r => serve coerce r h) rs (Some d) = Some d'
    /\ Ledger.typed d' = true
    /\ solvent d'
    /\ (forall user_id,
          Ledger.balance d' user_id
          = Ledger.earned d' user_id - Ledger.redeemed d' user_id).
Proof.
  revert d. induction rs as [|r rs IH]; intros d Hty Hsol.
  - exists d. repeat split; try done.
    intros uid. specialize (Hsol uid). unfold Ledger.balance. lia.
  - destruct (serve_invariant coerce r d Hty Hsol) as (d1 & Hd1 & Hty1 & Hsol1).
    cbn [fold_left]. rewrite Hd1. by apply IH.
Qed.

Lemma ledger_stays_solvent_witness :
  exists d',
    fold_left (fun h r => serve no_coercion r h) busy_requests (Some empty_db) = Some d'
    /\ Ledger.typed d' = true
    /\ solvent d'
    /\ (forall user_id,
          Ledger.balance d' user_id
          = Ledger.earned d' user_id - Ledger.redeemed d' user_id)
    /\ length (collection d' "submission") = 12%nat
    /\ length (collection d' "wallettransaction") = 1%nat
    /\ Ledger.earned d' first_user = 12000
    /\ Ledger.redeemed d' first_user = 10000.
Proof.
  destruct (ledger_stays_solvent no_coercion busy_requests empty_db)
    as (d' & Hd & Hty & Hsol & Hbal).
  - reflexivity.
  - intros user_id. vm_compute. discriminate.
  - exists d'. split; [exact Hd|]. split; [exact Hty|]. split; [exact Hsol|].
    split; [exact Hbal|].
    vm_compute in Hd. injection Hd as <-.
    repeat split; vm_compute; reflexivity.
Defined.

(** *** One user's requests and another user's wallet *)

Lemma field_values_snoc_other (key : string) (query doc : Doc) (docs : list Doc) :
  matches query doc = false ->
  field_values key query (docs ++ [doc]) = field_values key query docs.
Proof.
  intros Hno. rewrite field_values_app, field_values_cons, Hno, field_values_nil.
  by rewrite app_nil_r.
Qed.

Lemma get_wallet_insert_one_other (name : string) (doc : Doc) (d : Database)
    (user_id : string) :
  (name = "submission" ->
   Ledger.approved_submission user_id (<["_id" := VOid (next_oid d)]> doc) = false) ->
  (name = "wallettransaction" ->
   Ledger.redemption user_id (<["_id" := VOid (next_oid d)]> doc) = false) ->
  fst (get_wallet user_id (Some (insert_one name doc d)))
  = fst (get_wallet user_id (Some d)).
Proof.
  intros Hs Ht. rewrite !get_wallet_run. cbn [fst].
  destruct (ObjectId.of_str user_id); [|done].
  destruct (decide (name = "submission")) as [->|Hns].
  - rewrite collection_insert_one, (collection_insert_one_ne "submission") by done.
    rewrite field_values_snoc_other; [done|].
    rewrite approved_of_matches. by apply Hs.
  - rewrite (collection_insert_one_ne name "submission") by done.
    destruct (decide (name = "wallettransaction")) as [->|Hnt].
    + rewrite collection_insert_one, field_values_snoc_other; [done|].
      rewrite redeems_of_matches. by apply Ht.
    + by rewrite (collection_insert_one_ne name "wallettransaction").
Qed.

(** X5. A request that is not a submission or a redemption for
    [user_id] leaves the wallet of [user_id] as it was, whether the
    request is accepted or refused: the earnings and redemptions of
    other users never reach it. *)
Theorem wallet_isolation (coerce : value -> option Z) (r : request) (d : Database)
    (user_id : string) :
  account_of r <> Some user_id ->
  exists d',
    serve coerce r (Some d) = Some d'
    /\ fst (get_wallet user_id (Some d')) = fst (get_wallet user_id (Some d)).
Proof.
  intros Hother. destruct r as [|audience|payload|payload|uid|payload]; cbn [serve].
  - destruct (seed_challenges_state d) as [-> | ->]; [by exists d|].
    eexists. split; [done|].
    destruct (insert_challenges_collection defaults d) as [_ Hne].
    apply get_wallet_same_ledger; by apply Hne.
  - rewrite list_challenges_state. by exists d.
  - destruct (create_user_state d payload) as [-> | ->]; [by exists d|].
    eexists. split; [done|]. by apply get_wallet_insert_one_other.
  - destruct (submit_challenge_state coerce d payload) as [[_ ->] | (p & _ & _ & ->)];
      [by exists d|].
    eexists. split; [done|]. apply get_wallet_insert_one_other; [|done].
    intros _. fold (submission_doc d payload p). rewrite submission_doc_approved.
    apply bool_decide_eq_false_2. intros Heq. apply Hother. cbn. by rewrite Heq.
  - rewrite get_wallet_reads. by exists d.
  - destruct (redeem_points_state d payload) as [[_ ->] | (w & _ & _ & _ & _ & ->)];
      [by exists d|].
    eexists. split; [done|]. apply get_wallet_insert_one_other; [done|].
    intros _. fold (redeem_doc d payload). rewrite redeem_doc_redemption.
    apply bool_decide_eq_false_2. intros Heq. apply Hother. cbn. by rewrite Heq.
Qed.

Lemma wallet_isolation_witness :
  exists d',
    serve no_coercion (Redeem redeem_10000) (Some sample_db) = Some d'
    /\ fst (get_wallet bob (Some d')) = fst (get_wallet bob (Some sample_db)).
Proof.
  apply (wallet_isolation no_coercion (Redeem redeem_10000) sample_db bob).
  vm_compute. discriminate.
Defined.

(** *** Submissions and redemptions in sequence *)

(** X6. An accepted submission credits its user and nobody else: the
    user's earned total grows by the points awarded ([p >= 0], the
    value returned when the challenge holds an integer), the redeemed
    total is untouched, and on an integer ledger the wallet computed
    next shows [max(0, earned + p - redeemed)]. *)
Theorem submit_credits_wallet (coerce : value -> option Z) (d d' : Database)
    (payload : SubmitRequest.t) (resp : Doc) :
  submit_challenge coerce payload (Some d) = (Ok resp, Some d') ->
  exists p,
    0 <= p
    /\ (forall z, resp !! "points_awarded" = Some (VInt z) -> z = p)
    /\ Ledger.earned d' (SubmitRequest.user_id payload)
       = Ledger.earned d (SubmitRequest.user_id payload) + p
    /\ (forall user_id,
          user_id <> SubmitRequest.user_id payload ->
          Ledger.earned d' user_id = Ledger.earned d user_id)
    /\ (forall user_id, Ledger.redeemed d' user_id = Ledger.redeemed d user_id)
    /\ (Ledger.typed d = true ->
        Ledger.earned d (SubmitRequest.user_id payload) + p
        - Ledger.redeemed d (SubmitRequest.user_id payload) < Float.overflow_bound ->
        exists w,
          get_wallet (SubmitRequest.user_id payload) (Some d') = (Ok w, Some d')
          /\ Wallet.points w
             = Z.max 0 (Ledger.earned d (SubmitRequest.user_id payload) + p
                        - Ledger.redeemed d (SubmitRequest.user_id payload))).
Proof.
  rewrite submit_challenge_run.
  destruct (ObjectId.of_str (SubmitRequest.user_id payload)) as [uid|] eqn:Huid; [|done].
  destruct (ObjectId.of_str (SubmitRequest.challenge_id payload)); [|done].
  destruct (Ledger.by_id _ (collection d "user")); [|done].
  destruct (Ledger.by_id _ (collection d "challenge")) as [c|]; [|done].
  destruct (Submission.int_field coerce _) as [p|] eqn:Hp; [|done].
  destruct (Z.leb_spec 0 p) as [Hpos|]; [|done].
  intros [= <- <-]. exists p.
  assert (He : Ledger.earned
                 (insert_one "submission" (model_dump (new_submission payload p)) d)
                 (SubmitRequest.user_id payload)
               = Ledger.earned d (SubmitRequest.user_id payload) + p).
  { by rewrite earned_submitted, bool_decide_eq_true_2. }
  assert (Hr : forall user_id,
             Ledger.redeemed
               (insert_one "submission" (model_dump (new_submission payload p)) d) user_id
             = Ledger.redeemed d user_id).
  { intros user_id. rewrite redeemed_insert_one, bool_decide_eq_false_2 by done. lia. }
  split; [done|]. split; [|split; [done|split; [|split; [done|]]]].
  - intros z. rewrite lookup_insert_ne, lookup_singleton_eq by done.
    intros [= Hz]. rewrite Hz in Hp. by injection Hp.
  - intros user_id Hne. rewrite earned_submitted, bool_decide_eq_false_2 by done. lia.
  - intros Hty Hb.
    assert (Hov : 0 < Float.overflow_bound) by done.
    rewrite get_wallet_typed;
      [|by unfold ObjectId.is_valid; rewrite Huid | by apply typed_submitted].
    unfold Ledger.balance. rewrite He, Hr.
    rewrite wallet_of_bound by lia. by eexists.
Qed.

Lemma submit_credits_wallet_witness :
  exists p,
    0 <= p
    /\ Ledger.earned
         (insert_one "submission" (model_dump (new_submission submit_tree 1000)) sample_db)
         alice
       = Ledger.earned sample_db alice + p.
Proof.
  destruct (submit_credits_wallet no_coercion sample_db
              (insert_one "submission" (model_dump (new_submission submit_tree 1000)) sample_db)
              submit_tree
              {[ "id" := VStr (ObjectId.to_str (next_oid sample_db));
                 "points_awarded" := VInt 1000 ]})
    as (p & Hp & _ & He & _).
  - vm_compute. reflexivity.
  - by exists p.
Defined.

(** The wallet computed after a redemption that was accepted. *)
Lemma get_wallet_after_redeem (d : Database) (payload : RedeemRequest.t) (w w' : Wallet.t)
    (h : option Database) :
  get_wallet (RedeemRequest.user_id payload) (Some d) = (Ok w, Some d) ->
  0 < RedeemRequest.points payload <= Wallet.points w ->
  get_wallet (RedeemRequest.user_id payload)
    (Some (insert_one "wallettransaction" (model_dump (redeem_txn payload)) d))
  = (Ok w', h) ->
  Wallet.points w' = Wallet.points w - RedeemRequest.points payload.
Proof.
  intros Hw Hk Hw'.
  destruct (get_wallet_ok _ _ _ _ Hw) as (e & r & x & _ & He & Hr & _ & -> & _).
  destruct (get_wallet_ok _ _ _ _ Hw') as (e' & r' & x' & _ & He' & Hr' & _ & -> & _).
  cbn [Wallet.points] in *.
  rewrite collection_insert_one_ne in He' by done.
  rewrite collection_insert_one in Hr'. fold (redeem_doc d payload) in Hr'.
  rewrite field_values_app, redeem_doc_values in Hr'.
  unfold sum in *. rewrite sum_from_app, Hr in Hr'. cbn in Hr'.
  rewrite He in He'. injection He' as <-. injection Hr' as <-. lia.
Qed.

(** X7. Redemptions served one after the other cannot overdraw: if two
    redemptions of the same user are both accepted, their points
    together are at most the wallet computed before the first. *)
Theorem redemptions_within_balance (d d1 d2 : Database) (first second : RedeemRequest.t)
    (w : Wallet.t) (resp1 resp2 : Doc) :
  RedeemRequest.user_id second = RedeemRequest.user_id first ->
  get_wallet (RedeemRequest.user_id first) (Some d) = (Ok w, Some d) ->
  redeem_points first (Some d) = (Ok resp1, Some d1) ->
  redeem_points second (Some d1) = (Ok resp2, Some d2) ->
  RedeemRequest.points first + RedeemRequest.points second <= Wallet.points w
  /\ 0 < RedeemRequest.points first
  /\ 0 < RedeemRequest.points second.
Proof.
  intros Hu Hw H1 H2.
  destruct (redeem_points_state d first) as [[Hf _] | (w0 & Hw0 & Hk1 & _ & _ & Hd1)];
    [by rewrite H1 in Hf|].
  rewrite Hw in Hw0. injection Hw0 as <-.
  rewrite H1 in Hd1. cbn [snd] in Hd1. injection Hd1 as ->.
  destruct (redeem_points_state
              (insert_one "wallettransaction" (model_dump (redeem_txn first)) d) second)
    as [[Hf _] | (w1 & Hw1 & Hk2 & _)]; [by rewrite H2 in Hf|].
  rewrite Hu in Hw1.
  pose proof (get_wallet_after_redeem d first w w1 _ Hw Hk1 Hw1). lia.
Qed.

Lemma redemptions_within_balance_witness :
  RedeemRequest.points redeem_10000 + RedeemRequest.points redeem_10000 <= 42000
  /\ 0 < RedeemRequest.points redeem_10000
  /\ 0 < RedeemRequest.points redeem_10000.
Proof.
  apply (redemptions_within_balance rich_db rich_db_1 rich_db_2 redeem_10000 redeem_10000
           {| Wallet.user_id := alice; Wallet.points := 42000;
              Wallet.dollars := Float.round2 (Float.div (Float.of_Z 42000) Float.f1000);
              Wallet.can_withdraw := true;
              Wallet.min_withdrawal_dollars := Float.f10 |}
           {[ "id" := VStr (ObjectId.to_str (next_oid rich_db));
              "status" := VStr "pending_payout" ]}
           {[ "id" := VStr (ObjectId.to_str (next_oid rich_db_1));
              "status" := VStr "pending_payout" ]});
    vm_compute; reflexivity.
Defined.

(** *** The minimum withdrawal in points *)

(** X8. In points, the minimum withdrawal is 10000: a redemption of
    fewer points is refused whatever the balance, and nothing is
    written. *)
Theorem redeem_under_10000_refused (h : option Database) (payload : RedeemRequest.t) :
  RedeemRequest.points payload < 10000 ->
  exists e, redeem_points payload h = (Raise e, h).
Proof.
  intros Hk. destruct h as [d|]; [|by eexists].
  rewrite redeem_points_run.
  destruct (fst (get_wallet _ _)) as [w|e]; [|by eexists].
  destruct (Z.leb_spec (RedeemRequest.points payload) 0); [by eexists|].
  destruct (Wallet.points w <? RedeemRequest.points payload); [by eexists|].
  cbn [orb].
  assert (Hov : 10000 < Float.overflow_bound) by done.
  rewrite int_div_1000_bound by lia.
  pose proof (under_10000 (RedeemRequest.points payload)) as Hu.
  unfold under_minimum in Hu. rewrite Hu by lia. by eexists.
Qed.

Lemma redeem_under_10000_refused_witness :
  exists e, redeem_points redeem_5000 (Some sample_db) = (Raise e, Some sample_db).
Proof.
  apply (redeem_under_10000_refused (Some sample_db) redeem_5000). vm_compute. reflexivity.
Defined.

(** *** The under-18 flag *)

Lemma redeem_txn_with_flag_doc (d : Database) (payload : RedeemRequest.t) (flag : option bool) :
  field_values "points" (redeems_of (RedeemRequest.user_id payload))
    [redeem_doc d (with_flag payload flag)]
  = [VInt (RedeemRequest.points payload)].
Proof. apply (redeem_doc_values d (with_flag payload flag)). Qed.

(** X9. The flag [for_under18] decides the note of the stored
    transaction and nothing else: with any value of the flag the
    request gets the same response or the same error, and the wallets
    computed afterwards are the same. *)
Theorem for_under18_changes_note_only (h : option Database) (payload : RedeemRequest.t)
    (flag : option bool) :
  fst (redeem_points (with_flag payload flag) h) = fst (redeem_points payload h)
  /\ (forall user_id,
        fst (get_wallet user_id (snd (redeem_points (with_flag payload flag) h)))
        = fst (get_wallet user_id (snd (redeem_points payload h)))).
Proof.
  destruct h as [d|]; [|done].
  rewrite !redeem_points_run. cbn [with_flag RedeemRequest.user_id RedeemRequest.points].
  destruct (fst (get_wallet _ _)) as [w|e]; [|done].
  destruct (_ || _); [done|].
  destruct (Float.int_div_1000 _) as [x|]; [|done].
  destruct (Float.ltb x Float.f10); [done|].
  split; [done|]. intros user_id. cbn [snd].
  rewrite !get_wallet_run. cbn [fst].
  destruct (ObjectId.of_str user_id); [|done].
  rewrite !(collection_insert_one_ne "wallettransaction" "submission") by done.
  rewrite !collection_insert_one.
  fold (redeem_doc d (with_flag payload flag)) (redeem_doc d payload).
  rewrite !field_values_app, !field_values_cons, !field_values_nil.
  rewrite !redeems_of_matches, !redeem_doc_redemption.
  cbn [with_flag RedeemRequest.user_id].
  destruct (redeem_doc_fields d payload) as (_ & _ & _ & Hp & _).
  destruct (redeem_doc_fields d (with_flag payload flag)) as (_ & _ & _ & Hp' & _).
  unfold get. rewrite Hp, Hp'. done.
Qed.

(** *** to_str_id *)

(** X10. [to_str_id] maps [None] to [None] and returns a document
    without an [_id], or with a null one, as it is; otherwise the
    [_id] key is gone, [id] holds the id as a string and every other
    key keeps its value.  Applying it twice is applying it once. *)
Theorem to_str_id_renames_id (doc : Doc) :
  to_str_id None = None
  /\ (doc !! "_id" = None \/ doc !! "_id" = Some VNone -> to_str_id (Some doc) = Some doc)
  /\ (forall v,
        doc !! "_id" = Some v -> v <> VNone ->
        exists doc',
          to_str_id (Some doc) = Some doc'
          /\ doc' !! "_id" = None
          /\ doc' !! "id" = Some (VStr (py_str v))
          /\ (forall k, k <> "_id" -> k <> "id" -> doc' !! k = doc !! k))
  /\ to_str_id (to_str_id (Some doc)) = to_str_id (Some doc).
Proof.
  split; [done|]. split; [|split].
  - unfold to_str_id. by intros [-> | ->].
  - intros v Hv Hnn. unfold to_str_id. rewrite Hv.
    rewrite bool_decide_eq_false_2 by done.
    eexists. split; [done|]. split; [|split].
    + by rewrite lookup_insert_ne, lookup_delete_eq.
    + by rewrite lookup_insert_eq.
    + intros k H1 H2. by rewrite lookup_insert_ne, lookup_delete_ne.
  - destruct (doc !! "_id") as [v|] eqn:Hv.
    + destruct (decide (v = VNone)) as [->|Hn].
      * assert (Hsame : to_str_id (Some doc) = Some doc)
          by (unfold to_str_id; by rewrite Hv).
        by rewrite !Hsame.
      * assert (Hnew : to_str_id (Some doc)
                       = Some (<["id" := VStr (py_str v)]> (delete "_id" doc))).
        { unfold to_str_id. rewrite Hv. by rewrite bool_decide_eq_false_2. }
        rewrite Hnew. unfold to_str_id.
        by rewrite lookup_insert_ne, lookup_delete_eq.
    + assert (Hsame : to_str_id (Some doc) = Some doc)
        by (unfold to_str_id; by rewrite Hv).
      by rewrite !Hsame.
Qed.

Lemma to_str_id_renames_id_witness :
  exists doc',
    to_str_id (Some {[ "_id" := VOid 10; "title" := VStr "Plant a tree" ]}) = Some doc'
    /\ doc' !! "_id" = None
    /\ doc' !! "id" = Some (VStr "00000000000000000000000a")
    /\ (forall k, k <> "_id" -> k <> "id" ->
        doc' !! k = ({[ "_id" := VOid 10; "title" := VStr "Plant a tree" ]} : Doc) !! k).
Proof.
  destruct (to_str_id_renames_id {[ "_id" := VOid 10; "title" := VStr "Plant a tree" ]})
    as (_ & _ & H & _).
  apply (H (VOid 10)); [reflexivity | discriminate].
Defined.

(** *** Edge cases of submit_challenge *)

(** X11. The points of a submission are read from the stored
    challenge with 0 as the default: a challenge without a [points]
    field gives an accepted submission of 0 points, and one whose
    points are a negative integer makes the request fail on the
    validation of the submission, before anything is written. *)
Theorem submit_challenge_points_edge (coerce : value -> option Z) (d : Database)
    (payload : SubmitRequest.t) (uid cid : N) (u c : Doc) :
  ObjectId.of_str (SubmitRequest.user_id payload) = Ok uid ->
  ObjectId.of_str (SubmitRequest.challenge_id payload) = Ok cid ->
  Ledger.by_id uid (collection d "user") = Some u ->
  Ledger.by_id cid (collection d "challenge") = Some c ->
  (c !! "points" = None ->
   submit_challenge coerce payload (Some d)
   = (Ok {[ "id" := VStr (ObjectId.to_str (next_oid d)); "points_awarded" := VInt 0 ]},
      Some (insert_one "submission" (model_dump (new_submission payload 0)) d)))
  /\ (forall p,
        c !! "points" = Some (VInt p) -> p < 0 ->
        submit_challenge coerce payload (Some d) = (Raise ValidationError, Some d)).
Proof.
  intros Huid Hcid Hu Hc. split.
  - intros Hp. rewrite submit_challenge_run, Huid, Hcid, Hu, Hc.
    unfold get. by rewrite Hp.
  - intros p Hp Hneg. rewrite submit_challenge_run, Huid, Hcid, Hu, Hc.
    unfold get. rewrite Hp. unfold default, id. cbn [from_option Submission.int_field].
    destruct (Z.leb_spec 0 p); [lia | done].
Qed.

Lemma submit_challenge_points_edge_witness :
  submit_challenge no_coercion submit_no_points (Some odd_db)
  = (Ok {[ "id" := VStr (ObjectId.to_str (next_oid odd_db)); "points_awarded" := VInt 0 ]},
     Some (insert_one "submission" (model_dump (new_submission submit_no_points 0)) odd_db))
  /\ submit_challenge no_coercion submit_debt (Some odd_db)
     = (Raise ValidationError, Some odd_db).
Proof.
  split.
  - eapply (submit_challenge_points_edge no_coercion odd_db submit_no_points);
      vm_compute; reflexivity.
  - eapply (submit_challenge_points_edge no_coercion odd_db submit_debt);
      [vm_compute; reflexivity .. | vm_compute; reflexivity | vm_compute; reflexivity].
Defined.

(** *** Object ids as strings *)

Lemma hex_value_digit (d : N) : (d < 16)%N -> ObjectId.hex_value (ObjectId.hex_digit d) = Some d.
Proof.
  intros Hd.
  assert (Hcases : In d [0; 1; 2; 3; 4; 5; 6; 7; 8; 9; 10; 11; 12; 13; 14; 15]%N).
  { simpl. lia. }
  simpl in Hcases.
  repeat (destruct Hcases as [<- | Hcases]; [reflexivity|]). done.
Qed.

Lemma is_space_digit (d : N) : (d < 16)%N -> ObjectId.is_space (ObjectId.hex_digit d) = false.
Proof.
  intros Hd.
  assert (Hcases : In d [0; 1; 2; 3; 4; 5; 6; 7; 8; 9; 10; 11; 12; 13; 14; 15]%N).
  { simpl. lia. }
  simpl in Hcases.
  repeat (destruct Hcases as [<- | Hcases]; [reflexivity|]). done.
Qed.

Lemma hex_digits_length (n : nat) (o : N) (acc : string) :
  String.length (ObjectId.hex_digits n o acc) = (n + String.length acc)%nat.
Proof.
  revert o acc. induction n as [|n IH]; intros o acc; [done|].
  cbn [ObjectId.hex_digits]. rewrite IH. simpl. lia.
Qed.

(** The digits written for [n] bytes are read back as those bytes. *)
Lemma fromhex_hex_digits (n : nat) (o : N) (acc : string) :
  ObjectId.fromhex (ObjectId.hex_digits (2 * n) o acc)
  = (fun bytes => bytes_of n o ++ bytes)%list <$> ObjectId.fromhex acc.
Proof.
  revert o acc. induction n as [|n IH]; intros o acc.
  - change (2 * 0)%nat with 0%nat. cbn [ObjectId.hex_digits bytes_of].
    by destruct (ObjectId.fromhex acc).
  - replace (2 * S n)%nat with (S (S (2 * n))) by lia.
    cbn [ObjectId.hex_digits bytes_of]. rewrite IH.
    cbn [ObjectId.fromhex].
    rewrite is_space_digit, !hex_value_digit by (apply N.mod_lt; lia).
    rewrite N.Div0.div_div. change (16 * 16)%N with 256%N.
    assert (Hbyte : (16 * ((o / 16) mod 16) + o mod 16 = o mod 256)%N).
    { change 256%N with (16 * 16)%N. rewrite (N.Div0.mod_mul_r o 16 16). lia. }
    rewrite Hbyte.
    destruct (ObjectId.fromhex acc) as [bytes|]; [|done].
    cbn. by rewrite <- app_assoc.
Qed.

Lemma value_of_snoc (bytes : list N) (b : N) :
  ObjectId.value_of (bytes ++ [b]) = (256 * ObjectId.value_of bytes + b)%N.
Proof. unfold ObjectId.value_of. by rewrite fold_left_app. Qed.

Lemma bytes_of_value (n : nat) (o : N) :
  ObjectId.value_of (bytes_of n o) = (o mod 256 ^ N.of_nat n)%N
  /\ length (bytes_of n o) = n.
Proof.
  revert o. induction n as [|n IH]; intros o.
  - split; [|done]. cbn. by rewrite N.mod_1_r.
  - destruct (IH (o / 256)%N) as [Hv Hl]. cbn [bytes_of]. split.
    + rewrite value_of_snoc, Hv, Nnat.Nat2N.inj_succ, N.pow_succ_r'.
      rewrite (N.Div0.mod_mul_r o 256 (256 ^ N.of_nat n)). lia.
    + rewrite length_app, Hl. simpl. lia.
Qed.

(** An object id of twelve bytes is read back from its string. *)
Lemma of_str_to_str (o : N) : (o < 2 ^ 96)%N -> ObjectId.of_str (ObjectId.to_str o) = Ok o.
Proof.
  intros Ho. unfold ObjectId.of_str, ObjectId.to_str.
  rewrite N.div_small, N.mod_small by done.
  change (2 * (12 - N.to_nat 0))%nat with (2 * 12)%nat.
  rewrite hex_digits_length, (fromhex_hex_digits 12 o "").
  cbn [String.length Nat.add Nat.mul Nat.eqb ObjectId.fromhex fmap option_fmap option_map].
  rewrite app_nil_r. unfold ObjectId.of_bytes.
  destruct (bytes_of_value 12 o) as [-> ->].
  change (256 ^ N.of_nat 12)%N with (2 ^ 96)%N.
  rewrite N.mod_small by done. done.
Qed.

(** A string padded with whitespace to 24 characters is an object id
    too, of fewer bytes, and not the id of any twelve bytes. *)
Lemma of_str_padded :
  ObjectId.of_str padded = Ok (2 ^ 96 + 121761216271129447772895176)%N
  /\ ObjectId.is_valid "64 b7 f0 c2 a1 d3 e4 f5 " = true
  /\ ObjectId.is_valid "6 4b7f0c2a1d3e4f5a6b7c8 " = false
  /\ ObjectId.to_str (2 ^ 96 + 121761216271129447772895176)%N = "64b7f0c2a1d3e4f5a6b7c8".
Proof. repeat split. Qed.

(** Such an id passes the check of [get_wallet], which answers with
    the wallet of the records filed under that very string. *)
Lemma get_wallet_padded :
  exists w,
    get_wallet padded (Some sample_db) = (Ok w, Some sample_db) /\ Wallet.points w = 0.
Proof. eexists. split; [by vm_compute | done]. Qed.

Lemma by_id_app (o : N) (docs1 docs2 : list Doc) :
  Ledger.by_id o (docs1 ++ docs2)
  = match Ledger.by_id o docs1 with
    | Some doc => Some doc
    | None => Ledger.by_id o docs2
    end.
Proof.
  unfold Ledger.by_id. induction docs1 as [|doc docs1 IH]; [done|].
  simpl. by destruct (bool_decide _).
Qed.

Lemma by_id_inserted (name : string) (doc : Doc) (d : Database) :
  exists found,
    Ledger.by_id (next_oid d) (collection (insert_one name doc d) name) = Some found.
Proof.
  rewrite collection_insert_one, by_id_app.
  destruct (Ledger.by_id (next_oid d) (collection d name)) as [found|]; [by eexists|].
  unfold Ledger.by_id. cbn [List.find].
  rewrite bool_decide_eq_true_2 by apply lookup_insert_eq. by eexists.
Qed.

(** X12. The id that [create_user] returns is a well-formed object id
    under which [submit_challenge] finds a user: a submission made
    with it for a stored challenge with non-negative integer points is
    accepted.  (Object ids are 96-bit numbers.) *)
Theorem created_user_can_submit (coerce : value -> option Z) (d d' : Database)
    (payload : User.t) (resp : Doc) :
  (next_oid d < 2 ^ 96)%N ->
  create_user payload (Some d) = (Ok resp, Some d') ->
  exists new_id,
    resp = {[ "id" := VStr new_id ]}
    /\ ObjectId.is_valid new_id = true
    /\ (forall challenge_id notes cid c p,
          ObjectId.of_str challenge_id = Ok cid ->
          Ledger.by_id cid (collection d "challenge") = Some c ->
          c !! "points" = Some (VInt p) ->
          0 <= p ->
          is_ok (fst (submit_challenge coerce
                        {| SubmitRequest.user_id := new_id;
                           SubmitRequest.challenge_id := challenge_id;
                           SubmitRequest.notes := notes |} (Some d'))) = true).
Proof.
  intros Hoid. rewrite create_user_run.
  destruct (_ && _); [done|]. intros [= <- <-].
  exists (ObjectId.to_str (next_oid d)). split; [done|]. split.
  - unfold ObjectId.is_valid. by rewrite of_str_to_str.
  - intros challenge_id notes cid c p Hcid Hc Hp Hpos.
    rewrite submit_challenge_run.
    cbn [SubmitRequest.user_id SubmitRequest.challenge_id].
    rewrite of_str_to_str, Hcid by done.
    destruct (by_id_inserted "user" (model_dump payload) d) as [found ->].
    rewrite collection_insert_one_ne, Hc by done.
    unfold get. rewrite Hp. unfold default, id. cbn [from_option Submission.int_field].
    destruct (Z.leb_spec 0 p); [done | lia].
Qed.

Lemma created_user_can_submit_witness :
  exists new_id,
    ({[ "id" := VStr (ObjectId.to_str (next_oid sample_db)) ]} : Doc)
    = {[ "id" := VStr new_id ]}
    /\ ObjectId.is_valid new_id = true.
Proof.
  destruct (created_user_can_submit no_coercion sample_db
              (insert_one "user" (model_dump (with_parent_email teenager (Some "p@example.org")))
                 sample_db)
              (with_parent_email teenager (Some "p@example.org"))
              {[ "id" := VStr (ObjectId.to_str (next_oid sample_db)) ]})
    as (new_id & Hresp & Hvalid & _).
  - vm_compute. reflexivity.
  - vm_compute. reflexivity.
  - by exists new_id.
Defined.

(** X13. [create_user] accepts every adult, with or without a parent
    email, and checks for no duplicate: the same request served twice
    stores two users under two different ids. *)
Theorem create_user_adult_twice (d : Database) (payload : User.t) :
  18 <= User.age payload ->
  (N.succ (next_oid d) < 2 ^ 96)%N ->
  exists id1 id2 d1 d2,
    create_user payload (Some d) = (Ok {[ "id" := VStr id1 ]}, Some d1)
    /\ create_user payload (Some d1) = (Ok {[ "id" := VStr id2 ]}, Some d2)
    /\ id1 <> id2
    /\ length (collection d2 "user") = (length (collection d "user") + 2)%nat.
Proof.
  intros Hage Hoid.
  assert (Hrun : forall d0, create_user payload (Some d0)
            = (Ok {[ "id" := VStr (ObjectId.to_str (next_oid d0)) ]},
               Some (insert_one "user" (model_dump payload) d0))).
  { intros d0. rewrite create_user_run.
    by destruct (Z.ltb_spec (User.age payload) 18); [lia|]. }
  exists (ObjectId.to_str (next_oid d)), (ObjectId.to_str (N.succ (next_oid d))).
  eexists. eexists. split; [apply Hrun|]. split; [apply Hrun|]. split.
  - intros Heq. apply (f_equal ObjectId.of_str) in Heq.
    rewrite !of_str_to_str in Heq by lia. injection Heq. lia.
  - rewrite !collection_insert_one, !length_app. simpl. lia.
Qed.

Lemma create_user_adult_twice_witness :
  exists id1 id2 d1 d2,
    create_user adult (Some sample_db) = (Ok {[ "id" := VStr id1 ]}, Some d1)
    /\ create_user adult (Some d1) = (Ok {[ "id" := VStr id2 ]}, Some d2)
    /\ id1 <> id2
    /\ length (collection d2 "user") = (length (collection sample_db "user") + 2)%nat.
Proof.
  apply (create_user_adult_twice sample_db adult); vm_compute; (discriminate || reflexivity).
Defined.

(** *** Listed challenges and their ids *)

Lemma by_id_exists (o : N) (docs : list Doc) (doc : Doc) :
  doc ∈ docs -> doc !! "_id" = Some (VOid o) ->
  exists found, Ledger.by_id o docs = Some found.
Proof.
  intros Hin Hid. unfold Ledger.by_id.
  destruct (List.find _ docs) as [found|] eqn:Hfind; [by eexists|].
  apply list_elem_of_In in Hin.
  pose proof (List.find_none _ _ Hfind doc Hin) as Hno.
  cbv beta in Hno. by apply bool_decide_eq_false in Hno.
Qed.

(** X14. When the stored challenges carry object ids, every listed
    challenge has its [_id] replaced by an [id] string that is a
    well-formed object id and that finds a stored challenge: the ids
    of a listing can be used in [submit_challenge]. *)
Theorem listed_ids_resolve (d : Database) (audience : option string)
    (docs : list (option Doc)) (r : option Doc) :
  forallb has_object_id (collection d "challenge") = true ->
  list_challenges audience (Some d) = (Ok docs, Some d) ->
  r ∈ docs ->
  exists listed_doc new_id o found,
    r = Some listed_doc
    /\ listed_doc !! "_id" = None
    /\ listed_doc !! "id" = Some (VStr new_id)
    /\ ObjectId.of_str new_id = Ok o
    /\ Ledger.by_id o (collection d "challenge") = Some found.
Proof.
  intros Hids. rewrite list_challenges_run. intros [= <-] Hr.
  apply listed_elem in Hr as (doc & -> & Hin & _).
  rewrite forallb_forall in Hids.
  specialize (Hids doc (proj1 (list_elem_of_In _ _) Hin)).
  unfold has_object_id in Hids.
  destruct (doc !! "_id") as [[| | | |o]|] eqn:Hid; try done.
  apply N.ltb_lt in Hids.
  destruct (by_id_exists o _ doc Hin Hid) as [found Hfound].
  exists (<["id" := VStr (ObjectId.to_str o)]> (delete "_id" doc)),
    (ObjectId.to_str o), o, found.
  split; [|split; [|split; [|split]]].
  - unfold to_str_id. by rewrite Hid.
  - by rewrite lookup_insert_ne, lookup_delete_eq.
  - by rewrite lookup_insert_eq.
  - by apply of_str_to_str.
  - done.
Qed.

Lemma listed_ids_resolve_witness :
  exists listed_doc new_id o found,
    to_str_id
      (Some {[ "_id" := VOid 31170871365409138629861165280%N; "title" := VStr "Plant a tree";
               "audience" := VStr "adult"; "points" := VInt 1000;
               "is_active" := VBool true ]})
    = Some listed_doc
    /\ listed_doc !! "_id" = None
    /\ listed_doc !! "id" = Some (VStr new_id)
    /\ ObjectId.of_str new_id = Ok o
    /\ Ledger.by_id o (collection sample_db "challenge") = Some found.
Proof.
  eapply (listed_ids_resolve sample_db (Some "adult")).
  - vm_compute. reflexivity.
  - apply list_challenges_run.
  - vm_compute. left.
Defined.

(** *** The health check *)

(** X15. The health check reports on the environment, not on the
    database: [database_url] and [database_name] say only whether the
    two environment variables are set (the name read from the handle
    is overwritten and never returned), [connection_status] is
    "Connected" exactly when the handle is set, collections are listed
    only when the driver listed them, and the initial "Not Available"
    text is never returned. *)
Theorem test_database_reports (getenv : string -> option string)
    (db_name : Database -> option string)
    (list_collection_names : Database -> res (list string))
    (message : exn -> string) (db : option Database) :
  Health.backend (test_database getenv db_name list_collection_names message db)
  = "✅ Running"
  /\ Health.database_url (test_database getenv db_name list_collection_names message db)
     = Some (if truthy_str (getenv "DATABASE_URL") then "✅ Set" else "❌ Not Set")
  /\ Health.database_name (test_database getenv db_name list_collection_names message db)
     = Some (if truthy_str (getenv "DATABASE_NAME") then "✅ Set" else "❌ Not Set")
  /\ (Health.connection_status (test_database getenv db_name list_collection_names message db)
      = "Connected" <-> db <> None)
  /\ (forall name,
        name ∈ Health.collections
                 (test_database getenv db_name list_collection_names message db) ->
        exists d names, db = Some d /\ list_collection_names d = Ok names /\ name ∈ names)
  /\ Health.database (test_database getenv db_name list_collection_names message db)
     <> "❌ Not Available".
Proof.
  unfold test_database.
  destruct db as [d|]; [destruct (list_collection_names d) as [names|e] eqn:Hl|];
    cbn [Health.backend Health.database Health.database_url Health.database_name
         Health.connection_status Health.collections].
  - repeat split; try done. intros name Hname. by exists d, names.
  - repeat split; try done. intros name Hname. by apply elem_of_nil in Hname.
  - repeat split; try done.
    intros name Hname. by apply elem_of_nil in Hname.
Qed.

Lemma test_database_reports_witness :
  Health.database_name (test_database no_env no_name listing_fails exn_text (Some sample_db))
  = Some "❌ Not Set"
  /\ Health.database (test_database no_env no_name listing_fails exn_text (Some sample_db))
     <> "❌ Not Available"
  /\ Health.collections (test_database no_env no_name listing_fails exn_text (Some sample_db))
     = [].
Proof.
  destruct (test_database_reports no_env no_name listing_fails exn_text (Some sample_db))
    as (_ & _ & Hname & _ & _ & Hdb).
  split; [exact Hname|]. split; [exact Hdb | reflexivity].
Defined.
